(** * Paracon revenue dashboard: normalisation and reconciliation pipeline

    A shallow embedding of [app.py]: the password gate, the sheet choice,
    the column resolver [find_col], the date normaliser [normalize_period],
    the fact and forecast builders, the filter widgets and masks, and the
    aggregates (KPIs, top clients, revenue trend, actual versus forecast),
    followed by the properties proved about them.

    Conventions of the embedding.
    - Text is [string], the UTF-8 bytes of a Python [str]. [lower] shifts
      the ASCII capitals; [strip] removes every character that
      [str.strip()] removes, each in its UTF-8 form.
    - A cell of a number column is a [Num]: [Null] is a missing value (a
      pyarrow null, or the NaN of a numpy column, which pandas takes for
      missing), [NaN] is the float NaN held as a value by a pyarrow-backed
      column, [Fin q] is a finite float64, given by the rational it
      denotes. Float arithmetic rounds: differences, products, quotients
      and sums of finite numbers are left to the class [Pandas]; overflow
      to an infinity is left out.
    - A [datetime64[ns]] value is [option Timestamp]: [None] is NaT.
    - The dictionary built by [find_col] is a [gmap string string].
    - An expression that can raise has an [Outcome].
    - What the source calls in pandas without fixing its result (writing
      a cell as text, reading a cell as a number, the lenient date parser,
      rounding, the order [sort_values] gives to equal keys) is a field of
      the class [Pandas]; what is known of these operations is stated as a
      named proposition and assumed where it is used. *)

From stdpp Require Import gmap strings list pretty.
From Stdlib Require Import Ascii QArith Sorting Permutation Lia.

Open Scope string_scope.
Open Scope list_scope.

(* ===================================================================== *)
(** ** Text helpers *)
(* ===================================================================== *)

Module Text.

(** [str.lower] on the ASCII range: ['A'..'Z'] is shifted to ['a'..'z'],
    every other byte is kept. *)
Definition lower_ascii (c : Ascii.ascii) : Ascii.ascii :=
  let n := Ascii.nat_of_ascii c in
  if (65 <=? n)%nat && (n <=? 90)%nat then Ascii.ascii_of_nat (n + 32) else c.

Fixpoint lower (s : string) : string :=
  match s with
  | EmptyString => EmptyString
  | String c r => String (lower_ascii c) (lower r)
  end.

(** The characters [str.strip()] removes are those for which
    [str.isspace] holds. Of one byte: tab, newline, vertical tab, form
    feed, carriage return (9 to 13), the separators U+001C to U+001F and
    the space. *)
Definition is_space (c : Ascii.ascii) : bool :=
  let n := Ascii.nat_of_ascii c in
  (n =? 32)%nat || ((9 <=? n)%nat && (n <=? 13)%nat)
  || ((28 <=? n)%nat && (n <=? 31)%nat).

(** Of two bytes: U+0085 (C2 85) and U+00A0 (C2 A0). *)
Definition is_space2 (c1 c2 : Ascii.ascii) : bool :=
  let a := Ascii.nat_of_ascii c1 in
  let b := Ascii.nat_of_ascii c2 in
  (a =? 194)%nat && ((b =? 133)%nat || (b =? 160)%nat).

(** Of three bytes: U+1680 (E1 9A 80), U+2000 to U+200A (E2 80 80 to
    E2 80 8A), U+2028, U+2029 and U+202F (E2 80 A8, A9, AF), U+205F
    (E2 81 9F) and U+3000 (E3 80 80). *)
Definition is_space3 (c1 c2 c3 : Ascii.ascii) : bool :=
  let a := Ascii.nat_of_ascii c1 in
  let b := Ascii.nat_of_ascii c2 in
  let c := Ascii.nat_of_ascii c3 in
  ((a =? 225)%nat && (b =? 154)%nat && (c =? 128)%nat)
  || ((a =? 226)%nat && (b =? 128)%nat &&
      (((128 <=? c)%nat && (c <=? 138)%nat)
       || (c =? 168)%nat || (c =? 169)%nat || (c =? 175)%nat))
  || ((a =? 226)%nat && (b =? 129)%nat && (c =? 159)%nat)
  || ((a =? 227)%nat && (b =? 128)%nat && (c =? 128)%nat).

(** The bytes left when the white space at the front is dropped. With
    [backwards] the list is a text read from its end, so that the bytes
    of a character come in reverse. *)
Fixpoint drop_spaces (backwards : bool) (l : list Ascii.ascii)
  : list Ascii.ascii :=
  match l with
  | [] => []
  | a :: l1 =>
      if is_space a then drop_spaces backwards l1
      else
        match l1 with
        | [] => l
        | b :: l2 =>
            if (if backwards then is_space2 b a else is_space2 a b)
            then drop_spaces backwards l2
            else
              match l2 with
              | [] => l
              | c :: l3 =>
                  if (if backwards then is_space3 c b a else is_space3 a b c)
                  then drop_spaces backwards l3
                  else l
              end
        end
  end.

Definition lstrip (s : string) : string :=
  String.string_of_list_ascii (drop_spaces false (String.list_ascii_of_string s)).

Definition rstrip (s : string) : string :=
  String.string_of_list_ascii
    (rev (drop_spaces true (rev (String.list_ascii_of_string s)))).

Definition strip (s : string) : string := rstrip (lstrip s).

End Text.

(* ===================================================================== *)
(** ** Outcomes *)
(* ===================================================================== *)

(** What stops an expression: a division by zero; a key that a lookup
    does not find; an operation that needs one column and is given the
    frame that [df[name]] is when [name] heads several columns (an
    [AttributeError], a [TypeError] or a [ValueError], by the operation);
    a read of [st.secrets] when there is no secrets file. *)
Inductive Exception : Type :=
| ZeroDivisionError
| KeyError
| NotOneColumn
| SecretsNotFound.

(** The result of an expression: its value, or what it raised. *)
Inductive Outcome (A : Type) : Type :=
| Ok (a : A)
| Raised (e : Exception).
Arguments Ok {A} a.
Arguments Raised {A} e.

#[global] Instance Outcome_ret : MRet Outcome := fun A a => Ok a.

#[global] Instance Outcome_bind : MBind Outcome := fun A B f o =>
  match o with
  | Ok a => f a
  | Raised e => Raised e
  end.

(* ===================================================================== *)
(** ** Password gate *)
(* ===================================================================== *)

(** What the sidebar hands to one run of the script: the text of the
    password field and whether "Sign in" was pressed. *)
Record LoginInput : Type := {
  entered : string;
  sign_in : bool
}.

(** [check_password()]: its result and [st.session_state] after the call.
    [secrets] is the secrets file, [None] when there is none, in which
    case reading [st.secrets] raises. Of the session state only boolean
    entries matter here. *)
Definition check_password (secrets : option (gmap string string))
  (inp : LoginInput) (session_state : gmap string bool)
  : Outcome (bool * gmap string bool) :=
  match secrets with
  | None => Raised SecretsNotFound
  | Some secrets =>
      let pwd := default "" (secrets !! "APP_PASSWORD") in
      if String.eqb pwd "" then Ok (true, session_state)
      else
        let session_state :=
          if sign_in inp
          then <["_ok" := String.eqb (entered inp) pwd]> session_state
          else session_state in
        Ok (default false (session_state !! "_ok"), session_state)
  end.

(** The session state after the script has run once for each input in
    turn; a run stopped by the gate keeps what the gate wrote, a run in
    which the gate raised has written nothing. *)
Definition session_after (secrets : option (gmap string string))
  (inputs : list LoginInput) (session_state : gmap string bool)
  : gmap string bool :=
  foldl (fun st inp => match check_password secrets inp st with
                       | Ok r => snd r
                       | Raised _ => st
                       end) session_state inputs.

(** The last input of a sequence in which "Sign in" was pressed. *)
Definition last_sign_in (inputs : list LoginInput) : option LoginInput :=
  List.find sign_in (rev inputs).

(* ===================================================================== *)
(** ** Workbooks: sheet choice and headers *)
(* ===================================================================== *)

(** [next((s for s in names if s.lower() in wanted), fallback)], where the
    fallback [names[0]] or [names[-1]] is evaluated first and raises
    [IndexError] on a workbook without sheets ([None]). *)
Definition pick_sheet (wanted : list string)
  (fallback : list string -> option string) (names : list string)
  : option string :=
  match fallback names with
  | None => None
  | Some d =>
      Some (default d (List.find
                         (fun s => existsb (String.eqb (Text.lower s)) wanted)
                         names))
  end.

Definition s_source : list string -> option string :=
  pick_sheet ["source"] head.

Definition s_quarters : list string -> option string :=
  pick_sheet ["quaters"; "quarters"] last.

Definition s_budget : list string -> option string :=
  pick_sheet [Text.lower "budget details"] head.

Definition s_forecast : list string -> option string :=
  pick_sheet [Text.lower "forecast detail"] last.

(** [df.columns = [str(c).strip() for c in df.columns]] in
    [read_xlsx_filelike] and [read_xlsx_path]. *)
Definition strip_columns (columns : list string) : list string :=
  map Text.strip columns.

(* ===================================================================== *)
(** ** Column resolver *)
(* ===================================================================== *)

(** [cols = {str(c).lower(): c for c in df.columns}]: the comprehension
    inserts the headers from left to right, a later header with the same
    lower-cased key replaces the earlier one. *)
Definition cols_dict (columns : list string) : gmap string string :=
  foldl (fun m c => <[Text.lower c := c]> m) ∅ columns.

(** The [for cand in candidates] loop over the dictionary. *)
Fixpoint find_col_loop (cols : gmap string string) (candidates : list string)
  : option string :=
  match candidates with
  | [] => None
  | cand :: rest =>
      match cols !! Text.lower cand with
      | Some c => Some c
      | None => find_col_loop cols rest
      end
  end.

(** [find_col(df, candidates)]; only [df.columns] is read. *)
Definition find_col (columns candidates : list string) : option string :=
  find_col_loop (cols_dict columns) candidates.

(** The resolver as the specification words it: the first candidate that
    matches a header case-insensitively, resolved to the first such
    header. *)
Definition first_header_matching (columns : list string) (cand : string)
  : option string :=
  List.find (fun h => String.eqb (Text.lower h) (Text.lower cand)) columns.

Fixpoint resolve_first_header (columns candidates : list string) : option string :=
  match candidates with
  | [] => None
  | cand :: rest =>
      match first_header_matching columns cand with
      | Some h => Some h
      | None => resolve_first_header columns rest
      end
  end.

(* ===================================================================== *)
(** ** Cells, numbers and timestamps *)
(* ===================================================================== *)

(** A value of a number column. *)
Inductive Num : Type :=
| Null
| NaN
| Fin (q : Q).

(** [pd.isna] and [pd.notna] on a number: a null and a NaN are both
    "na". *)
Definition num_isna (x : Num) : bool :=
  match x with
  | Fin _ => false
  | _ => true
  end.

Definition num_notna (x : Num) : bool := negb (num_isna x).

(** A point in time by its calendar fields; [ts_nanos] is the time of day
    in nanoseconds. *)
Record Timestamp : Type := mkTs {
  ts_year : Z;
  ts_month : Z;
  ts_day : Z;
  ts_nanos : Z
}.

Definition ts_eqb (a b : Timestamp) : bool :=
  (ts_year a =? ts_year b)%Z && (ts_month a =? ts_month b)%Z &&
  (ts_day a =? ts_day b)%Z && (ts_nanos a =? ts_nanos b)%Z.

(** Chronological order: lexicographic on year, month, day, time of day. *)
Definition ts_ltb (a b : Timestamp) : bool :=
  (ts_year a <? ts_year b)%Z ||
  ((ts_year a =? ts_year b)%Z &&
   ((ts_month a <? ts_month b)%Z ||
    ((ts_month a =? ts_month b)%Z &&
     ((ts_day a <? ts_day b)%Z ||
      ((ts_day a =? ts_day b)%Z && (ts_nanos a <? ts_nanos b)%Z))))).

Definition ts_leb (a b : Timestamp) : bool := ts_ltb a b || ts_eqb a b.

(** The range of [datetime64[ns]]: [Timestamp.min] is
    1677-09-21 00:12:43.145224193 and [Timestamp.max] is
    2262-04-11 23:47:16.854775807. *)
Definition ts_min : Timestamp := mkTs 1677 9 21 763145224193.
Definition ts_max : Timestamp := mkTs 2262 4 11 85636854775807.

Definition in_ns_bounds (t : Timestamp) : bool := ts_leb ts_min t && ts_leb t ts_max.

(** [errors="coerce"] on a value that [datetime64[ns]] cannot hold. *)
Definition ns_coerce (o : option Timestamp) : option Timestamp :=
  match o with
  | Some t => if in_ns_bounds t then Some t else None
  | None => None
  end.

Definition is_leap (y : Z) : bool :=
  ((y mod 4 =? 0) && (negb (y mod 100 =? 0) || (y mod 400 =? 0)))%Z.

Definition days_in_month (y m : Z) : Z :=
  if (m =? 2)%Z then (if is_leap y then 29 else 28)%Z
  else if ((m =? 4) || (m =? 6) || (m =? 9) || (m =? 11))%Z then 30%Z
  else 31%Z.

(** A calendar date of the proleptic Gregorian calendar with a four-digit
    year, at midnight. *)
Definition valid_date (t : Timestamp) : bool :=
  ((0 <=? ts_year t) && (ts_year t <=? 9999) &&
   (1 <=? ts_month t) && (ts_month t <=? 12) &&
   (1 <=? ts_day t) && (ts_day t <=? days_in_month (ts_year t) (ts_month t)) &&
   (ts_nanos t =? 0))%Z.

(** A spreadsheet cell as [read_excel] delivers it: empty, a text, a
    number, or a date. *)
Inductive Cell : Type :=
| CNull
| CText (s : string)
| CNum (q : Q)
| CDate (t : Timestamp).

(** [dt.to_period("M").dt.to_timestamp()]: the first instant of the month. *)
Definition month_start (t : Timestamp) : Timestamp :=
  mkTs (ts_year t) (ts_month t) 1 0.

(* ===================================================================== *)
(** ** The strict tier: [to_datetime(s, errors="coerce", format="%Y-%m-%d")] *)
(* ===================================================================== *)

Module Strptime.

Definition digit_val (c : Ascii.ascii) : option Z :=
  let n := Ascii.nat_of_ascii c in
  if (48 <=? n)%nat && (n <=? 57)%nat then Some (Z.of_nat (n - 48)) else None.

(** [%Y]: exactly four digits. *)
Definition parse_year (s : string) : option (Z * string) :=
  match s with
  | String a (String b (String c (String d r))) =>
      match digit_val a, digit_val b, digit_val c, digit_val d with
      | Some x3, Some x2, Some x1, Some x0 =>
          Some (1000 * x3 + 100 * x2 + 10 * x1 + x0, r)%Z
      | _, _, _, _ => None
      end
  | _ => None
  end.

(** [%m] and [%d] after a separator: one digit, and a second one when it
    is there. *)
Definition parse_1or2 (s : string) : option (Z * string) :=
  match s with
  | String a r =>
      match digit_val a with
      | Some x =>
          match r with
          | String b r' =>
              match digit_val b with
              | Some y => Some (10 * x + y, r')%Z
              | None => Some (x, r)
              end
          | EmptyString => Some (x, r)
          end
      | None => None
      end
  | EmptyString => None
  end.

Definition expect_dash (s : string) : option string :=
  match s with
  | String c r => if Ascii.eqb c "-"%char then Some r else None
  | EmptyString => None
  end.

(** The fields of a text that matches the whole format. *)
Definition parse_fields (s : string) : option (Z * Z * Z) :=
  match parse_year s with
  | Some (y, s1) =>
      match expect_dash s1 with
      | Some s2 =>
          match parse_1or2 s2 with
          | Some (m, s3) =>
              match expect_dash s3 with
              | Some s4 =>
                  match parse_1or2 s4 with
                  | Some (d, EmptyString) => Some (y, m, d)
                  | _ => None
                  end
              | None => None
              end
          | None => None
          end
      | None => None
      end
  | None => None
  end.

(** One element of the strict parse: a text that does not match, a date
    that does not exist and a date outside [datetime64[ns]] all give
    NaT. *)
Definition to_datetime_strict (s : string) : option Timestamp :=
  match parse_fields s with
  | Some (y, m, d) =>
      let t := mkTs y m d 0 in
      if valid_date t then ns_coerce (Some t) else None
  | None => None
  end.

(** [strftime("%Y-%m-%d")]: the ISO text of a date. *)
Definition digit_char (n : Z) : Ascii.ascii :=
  Ascii.ascii_of_nat (48 + Z.to_nat n).

Definition pad2 (n : Z) (rest : string) : string :=
  String (digit_char (n / 10)) (String (digit_char (n mod 10)) rest).

Definition pad4 (n : Z) (rest : string) : string :=
  String (digit_char (n / 1000))
    (String (digit_char (n / 100 mod 10)) (pad2 (n mod 100) rest)).

Definition iso_format (t : Timestamp) : string :=
  pad4 (ts_year t)
    (String "-"%char (pad2 (ts_month t) (String "-"%char (pad2 (ts_day t) "")))).

End Strptime.

(* ===================================================================== *)
(** ** The pandas operations the source leaves open *)
(* ===================================================================== *)

(** What the source calls in pandas without fixing its result.
    - [astype_str col c]: the text [col.astype(str)] writes for the cell
      [c] of the column [col]; it goes by the dtype of the column (a null
      is ["nan"] in a float column and ["<NA>"] in a text column, a number
      is written with or without a fraction).
    - [to_numeric col c]: what [pd.to_numeric(col, errors="coerce")] holds
      for the cell [c]; a text that is not a number comes out as [NaN] or
      as [Null], by the dtype of the column.
    - [to_datetime_dayfirst]: the lenient parser
      [to_datetime(..., errors="coerce", dayfirst=True,
      infer_datetime_format=True)], which sees the whole sub-series.
    - [float_sub], [float_mul], [float_div]: float64 arithmetic on finite
      numbers, with its rounding.
    - [sum_floats] and [group_sum_floats]: the sum that [Series.sum] and
      [GroupBy.sum] give of the finite numbers left, in the order and
      with the rounding of their summation.
    - [sort_values_Revenue]: [sort_values("__Revenue", ascending=False)]
      on the grouped table, whose order among equal revenues goes by the
      sorting algorithm of the column's backend. *)
Class Pandas : Type := {
  astype_str : list Cell -> Cell -> string;
  to_numeric : list Cell -> Cell -> Num;
  to_datetime_dayfirst : list string -> list (option Timestamp);
  float_sub : Q -> Q -> Q;
  float_mul : Q -> Q -> Q;
  float_div : Q -> Q -> Q;
  sum_floats : list Q -> Q;
  group_sum_floats : list Q -> Q;
  sort_values_Revenue : list (string * Num) -> list (string * Num)
}.

(** The texts [astype(str)] writes for a null: ["nan"] (float column),
    ["<NA>"] (pyarrow or nullable column), ["None"] (object column),
    ["NaT"] (datetime column). *)
Definition null_texts : list string := ["nan"; "<NA>"; "None"; "NaT"].

(** [a] may stand before [b] in a table sorted by descending revenue:
    where both revenues are numbers, that of [a] is not the smaller. *)
Definition revenue_not_below (a b : string * Num) : Prop :=
  forall x y, snd a = Fin x -> snd b = Fin y -> (y <= x)%Q.

Section PandasFacts.

Context {pd : Pandas}.

(** [astype(str)] leaves a text cell as it is. *)
Definition astype_str_keeps_text : Prop :=
  forall col s, In (CText s) col -> astype_str col (CText s) = s.

(** [astype(str)] writes a null as one of [null_texts]. *)
Definition astype_str_null_text : Prop :=
  forall col, In CNull col -> In (astype_str col CNull) null_texts.

(** [sort_values] reorders the rows of the table. *)
Definition sort_values_permutes : Prop :=
  forall l, Permutation (sort_values_Revenue l) l.

(** [sort_values(..., ascending=False)] puts larger revenues first. *)
Definition sort_values_descending : Prop :=
  forall l, StronglySorted revenue_not_below (sort_values_Revenue l).

End PandasFacts.

(* ===================================================================== *)
(** ** Series operations *)
(* ===================================================================== *)

Definition notna {A} (o : option A) : bool :=
  match o with Some _ => true | None => false end.

Definition isna {A} (o : option A) : bool := negb (notna o).

(** [s[mask]]: the elements at the positions where the mask holds. *)
Fixpoint boolean_index {A} (mask : list bool) (l : list A) : list A :=
  match mask, l with
  | b :: mask', x :: l' =>
      if b then x :: boolean_index mask' l' else boolean_index mask' l'
  | _, _ => []
  end.

(** [out[mask] = vals]: the values, which carry the index of the masked
    positions, are written back to these positions in order. *)
Fixpoint mask_assign {A} (mask : list bool) (vals : list (option A))
  (out : list (option A)) : list (option A) :=
  match mask, out with
  | b :: mask', o :: out' =>
      if b then
        match vals with
        | v :: vals' => v :: mask_assign mask' vals' out'
        | [] => None :: mask_assign mask' [] out'
        end
      else o :: mask_assign mask' vals out'
  | _, _ => out
  end.

(** Subtraction on a number column: a null on either side gives a null,
    otherwise a NaN on either side gives NaN. *)
Definition fsub {pd : Pandas} (a b : Num) : Num :=
  match a, b with
  | Fin x, Fin y => Fin (float_sub x y)
  | Null, _ => Null
  | _, Null => Null
  | _, _ => NaN
  end.

(** [a - b] on two columns of one frame. *)
Definition series_sub {pd : Pandas} (a b : list Num) : list Num :=
  zip_with fsub a b.

(** The finite numbers of a column, in order. *)
Definition finite_values (l : list Num) : list Q :=
  omap (fun x => match x with Fin q => Some q | _ => None end) l.

Definition is_NaN (x : Num) : bool :=
  match x with NaN => true | _ => false end.

(** A sum that skips nulls, for a given summation of the finite numbers:
    a NaN among the values makes the sum NaN; the sum of nothing is 0
    ([min_count=0]). *)
Definition sum_with (sum : list Q -> Q) (l : list Num) : Num :=
  if existsb is_NaN l then NaN
  else match finite_values l with
       | [] => Fin 0
       | q :: qs => Fin (sum (q :: qs))
       end.

(** [Series.sum(skipna=True)]. *)
Definition series_sum {pd : Pandas} (l : list Num) : Num := sum_with sum_floats l.

Section WithPandas.

Context {pd : Pandas}.

(** [normalize_period(series)]. *)
Definition normalize_period (series : list Cell) : list (option Timestamp) :=
  let s := map (fun c => Text.strip (astype_str series c)) series in
  let parsed := map Strptime.to_datetime_strict s in
  let m := map notna parsed in
  let out := repeat None (length series) in
  let out := mask_assign m (boolean_index m parsed) out in
  if existsb negb m then
    mask_assign (map negb m)
      (map ns_coerce (to_datetime_dayfirst (boolean_index (map negb m) s)))
      out
  else out.

End WithPandas.

(* ===================================================================== *)
(** ** Fact and forecast builders *)
(* ===================================================================== *)

(** A sheet: its number of rows and its columns in order, each a header
    and the cells below it. *)
Record DataFrame : Type := {
  df_len : nat;
  df_cols : list (string * list Cell)
}.

Definition df_columns (df : DataFrame) : list string := map fst (df_cols df).

(** [df[name]] where a column is wanted: the cells of the column when
    [name] heads exactly one; when it heads several, [df[name]] is a frame
    and the operation applied to it raises. *)
Definition df_getitem (df : DataFrame) (name : string) : Outcome (list Cell) :=
  match List.filter (fun p => String.eqb (fst p) name) (df_cols df) with
  | [] => Raised KeyError
  | [p] => Ok (snd p)
  | _ :: _ :: _ => Raised NotOneColumn
  end.

Record FactRecord : Type := {
  f_Client : string;
  f_Period : option Timestamp;
  f_Revenue : Num;
  f_Cost : Num;
  f_GP : Num
}.

Record ForecastRecord : Type := {
  fc_Client : string;
  fc_Period : option Timestamp;
  fc_Forecast : Num
}.

Definition Unmapped : string := "(Unmapped)".

(** The rows of [fact], one per row of the sheet, from its derived
    columns. *)
Definition fact_rows (n : nat) (client : list string)
  (period : list (option Timestamp)) (revenue cost gp : list Num)
  : list FactRecord :=
  map (fun i =>
         {| f_Client := nth i client "";
            f_Period := nth i period None;
            f_Revenue := nth i revenue Null;
            f_Cost := nth i cost Null;
            f_GP := nth i gp Null |})
      (seq 0 n).

Definition forecast_rows (n : nat) (client : list string)
  (period : list (option Timestamp)) (amount : list Num)
  : list ForecastRecord :=
  map (fun i =>
         {| fc_Client := nth i client "";
            fc_Period := nth i period None;
            fc_Forecast := nth i amount Null |})
      (seq 0 n).

Section Builders.

Context {pd : Pandas}.

(** [normalize_period(df[c]) if c else pd.NaT]. *)
Definition period_column (df : DataFrame) (c : option string)
  : Outcome (list (option Timestamp)) :=
  match c with
  | Some c => series ← df_getitem df c; mret (normalize_period series)
  | None => mret (repeat None (df_len df))
  end.

(** [pd.to_numeric(df[c], errors="coerce") if c in df else np.nan]; the
    scalar [np.nan] fills a numpy column, in which NaN stands for a
    missing value. *)
Definition number_column (df : DataFrame) (c : option string)
  : Outcome (list Num) :=
  match c with
  | Some c => series ← df_getitem df c; mret (map (to_numeric series) series)
  | None => mret (repeat Null (df_len df))
  end.

(** [df[c].astype(str) if c else "(Unmapped)"]. *)
Definition client_column (df : DataFrame) (c : option string)
  : Outcome (list string) :=
  match c with
  | Some c => series ← df_getitem df c; mret (map (astype_str series) series)
  | None => mret (repeat Unmapped (df_len df))
  end.

(** The derived columns of [fact], in the order the source assigns them. *)
Definition fact_Period (df : DataFrame) : Outcome (list (option Timestamp)) :=
  period_column df
    (find_col (df_columns df) ["Fin Period"; "Period"; "Month"; "Date"]).

Definition fact_Revenue (df : DataFrame) : Outcome (list Num) :=
  number_column df (find_col (df_columns df) ["Amount"; "Value"; "Revenue"]).

Definition fact_Cost (df : DataFrame) : Outcome (list Num) :=
  number_column df (find_col (df_columns df) ["Cost"; "Costs"; "Direct Cost"]).

Definition fact_Client (df : DataFrame) : Outcome (list string) :=
  client_column df (find_col (df_columns df) ["Client"; "Customer"; "Account"]).

(** The fact table; it is not built when one of its columns raises. *)
Definition fact (df_source : DataFrame) : Outcome (list FactRecord) :=
  period ← fact_Period df_source;
  revenue ← fact_Revenue df_source;
  cost ← fact_Cost df_source;
  let gp := series_sub revenue cost in
  client ← fact_Client df_source;
  mret (fact_rows (df_len df_source) client period revenue cost gp).

Definition forecast_Period (df : DataFrame) : Outcome (list (option Timestamp)) :=
  period_column df
    (find_col (df_columns df) ["Period"; "Month"; "Fin Period"; "Date"]).

Definition forecast_Forecast (df : DataFrame) : Outcome (list Num) :=
  number_column df
    (find_col (df_columns df) ["Forecast"; "Amount"; "Value"; "Revenue"]).

Definition forecast_Client (df : DataFrame) : Outcome (list string) :=
  client_column df (find_col (df_columns df) ["Client"; "Customer"]).

Definition forecast (df_forecast : DataFrame) : Outcome (list ForecastRecord) :=
  period ← forecast_Period df_forecast;
  amount ← forecast_Forecast df_forecast;
  client ← forecast_Client df_forecast;
  mret (forecast_rows (df_len df_forecast) client period amount).

End Builders.

(* ===================================================================== *)
(** ** Filter masks *)
(* ===================================================================== *)

(** The left operand of [&] in [mask]: a boolean series, or the scalar
    [True] that Python broadcasts over the right operand. *)
Inductive MaskOperand : Type :=
| MScalar (b : bool)
| MSeries (l : list bool).

Definition mask_and (a : MaskOperand) (b : list bool) : list bool :=
  match a with
  | MScalar x => map (andb x) b
  | MSeries l => zip_with andb l b
  end.

(** [series.isin(values)]. *)
Definition isin (series values : list string) : list bool :=
  map (fun c => existsb (String.eqb c) values) series.

(** [series.between(left, right)], both ends included; NaT is never
    between. *)
Definition between (series : list (option Timestamp)) (left right : Timestamp)
  : list bool :=
  map (fun p => match p with
                | Some t => ts_leb left t && ts_leb t right
                | None => false
                end) series.

Section FilterEngine.

Context {R : Type} (client : R -> string) (period : R -> option Timestamp).

(** [(df["__Client"].isin(sel_clients) if sel_clients else True)
     & df["__Period"].between(sel_date[0], sel_date[1])]. *)
Definition row_mask (rows : list R) (sel_clients : list string)
  (sel_date : Timestamp * Timestamp) : list bool :=
  mask_and
    (match sel_clients with
     | [] => MScalar true
     | _ :: _ => MSeries (isin (map client rows) sel_clients)
     end)
    (between (map period rows) (fst sel_date) (snd sel_date)).

(** [df[mask].copy()]. *)
Definition filter_rows (rows : list R) (sel_clients : list string)
  (sel_date : Timestamp * Timestamp) : list R :=
  boolean_index (row_mask rows sel_clients sel_date) rows.

(** The filter as the specification words it, one record at a time. *)
Definition passes_filter (sel_clients : list string)
  (sel_date : Timestamp * Timestamp) (r : R) : bool :=
  (match sel_clients with
   | [] => true
   | _ => existsb (String.eqb (client r)) sel_clients
   end) &&
  match period r with
  | Some t => ts_leb (fst sel_date) t && ts_leb t (snd sel_date)
  | None => false
  end.

End FilterEngine.

(** [mask] and [fmask]. *)
Definition mask := row_mask f_Client f_Period.
Definition fmask := row_mask fc_Client fc_Period.

(** [fact_f = fact[mask].copy()] and [forecast_f = forecast[fmask].copy()]. *)
Definition fact_f := filter_rows f_Client f_Period.
Definition forecast_f := filter_rows fc_Client fc_Period.

(* ===================================================================== *)
(** ** Sorting and grouping *)
(* ===================================================================== *)

Section InsertionSort.

Context {A : Type} (leb : A -> A -> bool).

(** An element goes in front of the first element it may precede, so
    that elements that compare equal keep their order. *)
Fixpoint insert_sorted (x : A) (l : list A) : list A :=
  match l with
  | [] => [x]
  | y :: l' => if leb x y then x :: l else y :: insert_sorted x l'
  end.

Fixpoint isort (l : list A) : list A :=
  match l with
  | [] => []
  | x :: l' => insert_sorted x (isort l')
  end.

End InsertionSort.

Section GroupBy.

Context {pd : Pandas}.
Context {R K : Type} (key : R -> K) (val : R -> Num).
Context (keqb kleb : K -> K -> bool).

(** The distinct keys in the order of their first appearance. *)
Fixpoint unique (l : list K) : list K :=
  match l with
  | [] => []
  | k :: l' => k :: List.filter (fun k' => negb (keqb k k')) (unique l')
  end.

(** [groupby] lists the groups by ascending key ([sort=True]). *)
Definition group_keys (rows : list R) : list K :=
  isort kleb (unique (map key rows)).

(** The sum of one group: nulls skipped, NaN kept. *)
Definition group_sum (rows : list R) (k : K) : Num :=
  sum_with group_sum_floats
    (map val (List.filter (fun r => keqb (key r) k) rows)).

(** [rows.groupby(key, as_index=False)[val].sum()]. *)
Definition groupby_sum (rows : list R) : list (K * Num) :=
  map (fun k => (k, group_sum rows k)) (group_keys rows).

End GroupBy.

(* ===================================================================== *)
(** ** Filter widgets *)
(* ===================================================================== *)

(** [uniq_clients = sorted([c for c in
      fact["__Client"].dropna().unique().tolist() if c])]. *)
Definition uniq_clients (fact : list FactRecord) : list string :=
  isort String.leb
    (List.filter (fun c => negb (String.eqb c ""))
       (unique String.eqb (map f_Client fact))).

(** [default_clients = uniq_clients[:10] if len(uniq_clients) > 0 else []]. *)
Definition default_clients (fact : list FactRecord) : list string :=
  match uniq_clients fact with
  | [] => []
  | _ :: _ => firstn 10 (uniq_clients fact)
  end.

(** [Series.min()] and [Series.max()] on a datetime column: NaT is
    skipped, and the result is NaT when nothing is left. *)
Definition ts_min2 (a b : Timestamp) : Timestamp := if ts_leb a b then a else b.
Definition ts_max2 (a b : Timestamp) : Timestamp := if ts_leb a b then b else a.

Fixpoint series_fold (f : Timestamp -> Timestamp -> Timestamp)
  (l : list (option Timestamp)) : option Timestamp :=
  match l with
  | [] => None
  | o :: l' =>
      match o, series_fold f l' with
      | Some t, Some u => Some (f t u)
      | Some t, None => Some t
      | None, r => r
      end
  end.

Definition series_min : list (option Timestamp) -> option Timestamp :=
  series_fold ts_min2.

Definition series_max : list (option Timestamp) -> option Timestamp :=
  series_fold ts_max2.

(** [date_min] and [date_max], with the fixed range 2024-01-01 to
    2025-12-31 when either is NaT. *)
Definition date_bounds (fact : list FactRecord) : Timestamp * Timestamp :=
  match series_min (map f_Period fact), series_max (map f_Period fact) with
  | Some date_min, Some date_max => (date_min, date_max)
  | _, _ => (mkTs 2024 1 1 0, mkTs 2025 12 31 0)
  end.

(** [Timestamp.to_pydatetime()]: a [datetime] counts microseconds, the
    nanoseconds below a microsecond are dropped. *)
Definition to_pydatetime (t : Timestamp) : Timestamp :=
  mkTs (ts_year t) (ts_month t) (ts_day t) (ts_nanos t - ts_nanos t mod 1000)%Z.

(** The [value] the date slider starts with, which is [sel_date] until
    the user moves it. *)
Definition slider_value (fact : list FactRecord) : Timestamp * Timestamp :=
  (to_pydatetime (fst (date_bounds fact)), to_pydatetime (snd (date_bounds fact))).

(* ===================================================================== *)
(** ** Aggregates *)
(* ===================================================================== *)

Section Aggregates.

Context {pd : Pandas}.

(** [a / b] on scalars: a null or a NaN propagates; a division by zero
    is not given a value but reported, so that it shows in every result
    built on it. *)
Definition fdiv (a b : Num) : Outcome Num :=
  match b with
  | Fin y =>
      if Qeq_bool y 0 then Raised ZeroDivisionError
      else Ok (match a with
               | Fin x => Fin (float_div x y)
               | na => na
               end)
  | na => Ok na
  end.

Definition fmul (a b : Num) : Num :=
  match a, b with
  | Fin x, Fin y => Fin (float_mul x y)
  | Null, _ => Null
  | _, Null => Null
  | _, _ => NaN
  end.

(** [x != 0]; NaN differs from everything. *)
Definition ne_zero (a : Num) : bool :=
  match a with
  | Fin x => negb (Qeq_bool x 0)
  | _ => true
  end.

End Aggregates.

(** The KPI block, on the filtered fact table. *)
Module Kpi.

Section WithPandas.

Context {pd : Pandas}.

(** [rev = fact_f["__Revenue"].sum(skipna=True)]. *)
Definition rev (facts : list FactRecord) : Num :=
  series_sum (map f_Revenue facts).

(** [cost = fact_f["__Cost"].sum(skipna=True)]. *)
Definition cost (facts : list FactRecord) : Num :=
  series_sum (map f_Cost facts).

(** [gp = fact_f["__GP"].sum(skipna=True)]. *)
Definition gp (facts : list FactRecord) : Num :=
  series_sum (map f_GP facts).

(** [margin = (gp / rev * 100) if pd.notna(rev) and rev != 0 else np.nan]. *)
Definition margin (facts : list FactRecord) : Outcome Num :=
  if num_notna (rev facts) && ne_zero (rev facts)
  then q ← fdiv (gp facts) (rev facts); mret (fmul q (Fin 100))
  else mret NaN.

End WithPandas.

End Kpi.

Record Kpis : Type := {
  kpi_rev : Num;
  kpi_cost : Num;
  kpi_gp : Num;
  kpi_margin : Num
}.

(** What a KPI card shows: the dash with "No data" when [pd.isna(val)],
    the formatted value otherwise. *)
Inductive KpiCard : Type :=
| NoData
| Shown (q : Q).

Definition kpi_card (val : Num) : KpiCard :=
  match val with
  | Fin q => Shown q
  | _ => NoData
  end.

(** The four cards, in the order Revenue, Cost, Gross Profit, Margin %. *)
Definition kpi_cards (k : Kpis) : list KpiCard :=
  [kpi_card (kpi_rev k); kpi_card (kpi_cost k); kpi_card (kpi_gp k);
   kpi_card (kpi_margin k)].

(** [dropna(subset=["__Period"])], then [Period] set to the month start. *)
Definition month_rows {R} (period : R -> option Timestamp) (val : R -> Num)
  (rows : list R) : list (Timestamp * Num) :=
  omap (fun r => match period r with
                 | Some t => Some (month_start t, val r)
                 | None => None
                 end) rows.

(** The value a month has in a monthly table, if the table has the
    month. *)
Definition lookup_month (k : Timestamp) (l : list (Timestamp * Num))
  : option Num :=
  option_map snd (List.find (fun p => ts_eqb (fst p) k) l).

(** [pd.merge(act, fc, on="Period", how="outer")]: a row per month of
    either side, a null where a side has no such month. *)
Definition merge_outer (left right : list (Timestamp * Num))
  : list (Timestamp * Num * Num) :=
  map (fun p => (fst p, snd p, default Null (lookup_month (fst p) right))) left ++
  omap (fun p => match lookup_month (fst p) left with
                 | Some _ => None
                 | None => Some (fst p, Null, snd p)
                 end) right.

(** [sort_values("Period")]; the months of the merged table are distinct,
    so that their ascending order is one order. *)
Definition sort_values_Period (l : list (Timestamp * Num * Num))
  : list (Timestamp * Num * Num) :=
  isort (fun a b => ts_leb (fst (fst a)) (fst (fst b))) l.

Section Charts.

Context {pd : Pandas}.

(** The four KPIs together. *)
Definition sumKpis (facts : list FactRecord) : Outcome Kpis :=
  margin ← Kpi.margin facts;
  mret {| kpi_rev := Kpi.rev facts; kpi_cost := Kpi.cost facts;
          kpi_gp := Kpi.gp facts; kpi_margin := margin |}.

(** The KPI block followed by the loop that fills the four cards. *)
Definition render_kpis (facts : list FactRecord) : Outcome (list KpiCard) :=
  k ← sumKpis facts; mret (kpi_cards k).

(** [top_clients = fact_f.groupby("__Client", as_index=False)["__Revenue"]
      .sum().sort_values("__Revenue", ascending=False).head(15)]. *)
Definition top_clients (facts : list FactRecord) : list (string * Num) :=
  firstn 15
    (sort_values_Revenue
       (groupby_sum f_Client f_Revenue String.eqb String.leb facts)).

(** [... .groupby("Period", as_index=False)[val].sum()]. *)
Definition monthly_sum {R} (period : R -> option Timestamp) (val : R -> Num)
  (rows : list R) : list (Timestamp * Num) :=
  groupby_sum fst snd ts_eqb ts_leb (month_rows period val rows).

(** The revenue trend [ts], under [if fact_f["__Period"].notna().any()]. *)
Definition ts (facts : list FactRecord) : list (Timestamp * Num) :=
  monthly_sum f_Period f_Revenue facts.

Definition monthlyTrend (facts : list FactRecord)
  : option (list (Timestamp * Num)) :=
  if existsb notna (map f_Period facts) then Some (ts facts) else None.

(** The monthly actuals [act], the monthly forecasts [fc] and their
    merge [af]. *)
Definition act (facts : list FactRecord) : list (Timestamp * Num) :=
  monthly_sum f_Period f_Revenue facts.

Definition fc (forecasts : list ForecastRecord) : list (Timestamp * Num) :=
  monthly_sum fc_Period fc_Forecast forecasts.

Definition af (facts : list FactRecord) (forecasts : list ForecastRecord)
  : list (Timestamp * Num * Num) :=
  sort_values_Period (merge_outer (act facts) (fc forecasts)).

(** The block under [if forecast_f["__Period"].notna().any()]: [None] when
    the guard fails and [af] is never computed. *)
Definition actualVsForecast (facts : list FactRecord)
  (forecasts : list ForecastRecord) : option (list (Timestamp * Num * Num)) :=
  if existsb notna (map fc_Period forecasts) then Some (af facts forecasts)
  else None.

End Charts.

(* ===================================================================== *)
(** ** The aggregates as the specification words them *)
(* ===================================================================== *)

(** The order of a stable sort by descending revenue that puts nulls and
    NaN last. *)
Definition revenue_geb (a b : string * Num) : bool :=
  match snd a, snd b with
  | Fin x, Fin y => Qle_bool y x
  | Fin _, _ => true
  | _, Fin _ => false
  | _, _ => true
  end.

(** The record falls in the month that starts at [m]. *)
Definition in_month {R} (period : R -> option Timestamp) (m : Timestamp) (r : R)
  : bool :=
  match period r with
  | Some t => ts_eqb (month_start t) m
  | None => false
  end.

(** Some record falls in that month. *)
Definition has_month {R} (period : R -> option Timestamp) (rows : list R)
  (m : Timestamp) : bool :=
  existsb (in_month period m) rows.

(** The months of a record set, nulls dropped. *)
Definition months_of {R} (period : R -> option Timestamp) (rows : list R)
  : list Timestamp :=
  omap (fun r => month_start <$> period r) rows.

(** The two record sets hold the same rows for every client, in the same
    order within a client; only the order in which the clients are met
    may differ. *)
Definition same_client_rows (facts facts' : list FactRecord) : Prop :=
  forall c, List.filter (fun r => String.eqb (f_Client r) c) facts'
            = List.filter (fun r => String.eqb (f_Client r) c) facts.

Section SpecSide.

Context {pd : Pandas}.

(** The summed revenue of a client. *)
Definition client_revenue (facts : list FactRecord) (c : string) : Num :=
  sum_with group_sum_floats
    (map f_Revenue (List.filter (fun r => String.eqb (f_Client r) c) facts)).

(** [topClients]: the clients in the order in which the input first meets
    them, sorted by descending revenue with ties left in that order, cut
    to 15. *)
Definition topClients_spec (facts : list FactRecord) : list (string * Num) :=
  firstn 15
    (isort revenue_geb
       (map (fun c => (c, client_revenue facts c))
            (unique String.eqb (map f_Client facts)))).

(** The sum of a month's values. *)
Definition month_total {R} (period : R -> option Timestamp) (val : R -> Num)
  (rows : list R) (m : Timestamp) : Num :=
  sum_with group_sum_floats (map val (List.filter (in_month period m) rows)).

(** One side of the outer join: the month's sum where the side has the
    month, null where it has not. *)
Definition side_value {R} (period : R -> option Timestamp) (val : R -> Num)
  (rows : list R) (m : Timestamp) : Num :=
  if has_month period rows m then month_total period val rows m else Null.

(** [actualVsForecast]: for every input, a row per month of either side,
    months ascending, each side with its sum or null. *)
Definition actualVsForecast_spec (facts : list FactRecord)
  (forecasts : list ForecastRecord) : list (Timestamp * Num * Num) :=
  map (fun m => (m, side_value f_Period f_Revenue facts m,
                 side_value fc_Period fc_Forecast forecasts m))
      (isort ts_leb
         (unique ts_eqb (months_of f_Period facts ++ months_of fc_Period forecasts))).

End SpecSide.

(* ===================================================================== *)
(** ** A reference instance *)
(* ===================================================================== *)

(** A small day-first reader, the lenient parser of the reference
    instance: [DD/MM/YYYY], and the ISO form as a fall-back. pandas reads
    more forms than these, and guesses one form from the first text. *)
Definition parse_dayfirst (s : string) : option Timestamp :=
  match Strptime.parse_1or2 s with
  | Some (d, String c1 s1) =>
      match Strptime.parse_1or2 s1 with
      | Some (m, String c2 s2) =>
          match Strptime.parse_year s2 with
          | Some (y, EmptyString) =>
              if Ascii.eqb c1 "/"%char && Ascii.eqb c2 "/"%char
                 && valid_date (mkTs y m d 0)
              then Some (mkTs y m d 0) else None
          | _ => Strptime.to_datetime_strict s
          end
      | _ => Strptime.to_datetime_strict s
      end
  | _ => Strptime.to_datetime_strict s
  end.

Fixpoint parse_nat_digits (s : string) (acc : Z) : option Z :=
  match s with
  | EmptyString => Some acc
  | String c r =>
      match Strptime.digit_val c with
      | Some d => parse_nat_digits r (10 * acc + d)%Z
      | None => None
      end
  end.

(** The column holds numbers and empty cells only: [read_excel] gives it
    a number dtype. *)
Definition is_number_column (col : list Cell) : bool :=
  forallb (fun c => match c with CNum _ | CNull => true | _ => false end) col.

Definition has_null (col : list Cell) : bool :=
  existsb (fun c => match c with CNull => true | _ => false end) col.

(** The whole part of a number in decimal digits. *)
Definition int_repr (q : Q) : string := pretty (Qnum q / Zpos (Qden q))%Z.

(** The reference instance, a stand-in for pandas on small examples:
    arithmetic is exact, as float64 is on whole numbers of moderate size;
    a number column with a null is a float column, in which a null is
    written ["nan"] and a whole number with [".0"]; in other columns a
    null is written ["<NA>"]; a date is written with its time of day; a
    text that is not a number, and a date, are read as NaN; [sort_values]
    is the stable sort that pyarrow gives. *)
Definition pandas_ref : Pandas := {|
  astype_str := fun col c =>
    match c with
    | CText s => s
    | CNull => if is_number_column col then "nan" else "<NA>"
    | CNum q =>
        if is_number_column col && has_null col
        then String.append (int_repr q) ".0"
        else int_repr q
    | CDate t => String.append (Strptime.iso_format t) " 00:00:00"
    end;
  to_numeric := fun col c =>
    match c with
    | CNull => Null
    | CNum q => Fin q
    | CDate _ => NaN
    | CText EmptyString => NaN
    | CText s =>
        match parse_nat_digits s 0 with
        | Some z => Fin (inject_Z z)
        | None => NaN
        end
    end;
  to_datetime_dayfirst := map parse_dayfirst;
  float_sub := Qminus;
  float_mul := Qmult;
  float_div := Qdiv;
  sum_floats := fun l => fold_left Qplus l 0%Q;
  group_sum_floats := fun l => fold_left Qplus l 0%Q;
  sort_values_Revenue := isort revenue_geb
|}.

(* ===================================================================== *)
(** ** Sample sheets and records *)
(* ===================================================================== *)

Definition sheet1 : DataFrame := {|
  df_len := 3;
  df_cols := [("Client", [CText "Acme"; CNull; CText "(Unmapped)"]);
              ("Amount", [CNum 100; CNum 70; CNull]);
              ("Cost", [CNum 40; CNull; CNum 5]);
              ("Date", [CText "2025-01-05"; CText "10/02/2025"; CText "soon"])]
|}.

(** A sheet with clients and amounts but no cost column. *)
Definition sheet_no_cost : DataFrame := {|
  df_len := 2;
  df_cols := [("Customer", [CText "Acme"; CText "Bolt"]);
              ("Revenue", [CNum 100; CNum 50]);
              ("Month", [CText "2025-01-05"; CText "2025-02-10"])]
|}.

(** A sheet with clients and amounts but no period column. *)
Definition sheet_no_period : DataFrame := {|
  df_len := 2;
  df_cols := [("Client", [CText "Acme"; CText "Bolt"]);
              ("Amount", [CNum 100; CNum 50])]
|}.

(** A sheet in which two columns are headed ["Client"] once the headers
    are stripped. *)
Definition sheet_two_clients : DataFrame := {|
  df_len := 1;
  df_cols := [("Client", [CText "Acme"]);
              ("Client", [CText "Bolt"]);
              ("Amount", [CNum 100])]
|}.

Definition mkFact (client : string) (period : option Timestamp)
  (revenue cost gp : Num) : FactRecord :=
  {| f_Client := client; f_Period := period; f_Revenue := revenue;
     f_Cost := cost; f_GP := gp |}.

Definition mkForecast (client : string) (period : option Timestamp)
  (amount : Num) : ForecastRecord :=
  {| fc_Client := client; fc_Period := period; fc_Forecast := amount |}.

(** Revenues that cancel out, with costs on record. *)
Definition facts_zero_revenue : list FactRecord :=
  [mkFact "Acme" (Some (mkTs 2025 1 5 0)) (Fin 50) (Fin 30) (Fin 20);
   mkFact "Acme" (Some (mkTs 2025 1 9 0)) (Fin (-50)) (Fin 10) (Fin (-60))].

(** Actuals for January and March 2025. *)
Definition facts_jan_mar : list FactRecord :=
  [mkFact "Acme" (Some (mkTs 2025 3 5 0)) (Fin 100) Null Null;
   mkFact "Bolt" (Some (mkTs 2025 1 5 0)) (Fin 40) (Fin 10) (Fin 30);
   mkFact "Acme" (Some (mkTs 2025 1 20 0)) (Fin 60) Null Null].

(** Three actuals over January and February 2025. *)
Definition facts_jan_feb : list FactRecord :=
  [mkFact "Acme" (Some (mkTs 2025 1 5 0)) (Fin 100) Null Null;
   mkFact "Acme" (Some (mkTs 2025 2 10 0)) (Fin 50) Null Null;
   mkFact "Bolt" (Some (mkTs 2025 2 20 0)) (Fin 70) Null Null].

(** Forecasts for January and February 2025. *)
Definition forecasts_jan_feb : list ForecastRecord :=
  [mkForecast "Acme" (Some (mkTs 2025 2 7 0)) (Fin 5);
   mkForecast "Acme" (Some (mkTs 2025 1 7 0)) (Fin 90);
   mkForecast "Bolt" (Some (mkTs 2025 2 9 0)) Null].

(** Forecast rows none of which has a period. *)
Definition forecasts_no_period : list ForecastRecord :=
  [mkForecast "Acme" None (Fin 5); mkForecast "Bolt" None (Fin 7)].

(** A forecast for February 2025 whose amount is missing. *)
Definition forecasts_null_amount : list ForecastRecord :=
  [mkForecast "Acme" (Some (mkTs 2025 2 14 0)) Null].

(** Clients A: 300, B: 300, C: 100, with A met first. *)
Definition facts_A_first : list FactRecord :=
  [mkFact "A" None (Fin 100) Null Null; mkFact "B" None (Fin 300) Null Null;
   mkFact "A" None (Fin 200) Null Null; mkFact "C" None (Fin 100) Null Null].

(** The same clients with B met first. *)
Definition facts_B_first : list FactRecord :=
  [mkFact "B" None (Fin 300) Null Null; mkFact "A" None (Fin 100) Null Null;
   mkFact "A" None (Fin 200) Null Null; mkFact "C" None (Fin 100) Null Null].

(** The header [c], if one was resolved, heads exactly one column. *)
Definition heads_one_column (df : DataFrame) (c : option string) : bool :=
  match c with
  | None => true
  | Some h =>
      (length (List.filter (fun p => String.eqb (fst p) h) (df_cols df)) =? 1)%nat
  end.

(** The headers resolved for the fact table, in the order in which their
    columns are read. *)
Definition fact_headers (df : DataFrame) : list (option string) :=
  [find_col (df_columns df) ["Fin Period"; "Period"; "Month"; "Date"];
   find_col (df_columns df) ["Amount"; "Value"; "Revenue"];
   find_col (df_columns df) ["Cost"; "Costs"; "Direct Cost"];
   find_col (df_columns df) ["Client"; "Customer"; "Account"]].

(* ===================================================================== *)
(** ** Lists: lookups, prefixes and sorted lists *)
(* ===================================================================== *)

Section ListFacts.

Lemma lookup_map {A B} (f : A -> B) (l : list A) i :
  map f l !! i = option_map f (l !! i).
Proof. revert i. induction l as [|x l IH]; intros [|i]; simpl; auto. Qed.

Lemma nth_lookup_default {A} (l : list A) i x d :
  l !! i = Some x -> nth i l d = x.
Proof.
  revert i. induction l as [|y l IH]; intros [|i]; simpl; try done;
    [congruence | auto].
Qed.

Lemma omap_In {A B} (g : A -> option B) (l : list A) (y : B) :
  In y (omap g l) <-> exists x, In x l /\ g x = Some y.
Proof.
  rewrite <- list_elem_of_In, list_elem_of_omap.
  by setoid_rewrite list_elem_of_In.
Qed.

Lemma In_firstn {A} (n : nat) (l : list A) (a : A) :
  In a (firstn n l) -> In a l.
Proof.
  intros Hin. rewrite <- (firstn_skipn n l). apply in_or_app. by left.
Qed.

Lemma NoDup_map_firstn {A B} (f : A -> B) (n : nat) (l : list A) :
  List.NoDup (map f l) -> List.NoDup (map f (firstn n l)).
Proof.
  rewrite <- (firstn_skipn n l) at 1. rewrite map_app.
  apply NoDup_app_remove_r.
Qed.

Lemma firstn_StronglySorted {A} (R : A -> A -> Prop) (n : nat) (l : list A) :
  StronglySorted R l -> StronglySorted R (firstn n l).
Proof.
  intros Hs. revert n. induction Hs as [|x l Hs IH Hx]; intros [|n]; simpl;
    try constructor; [apply IH|].
  apply List.Forall_forall. intros y Hy.
  eapply List.Forall_forall in Hx; [exact Hx|]. by eapply In_firstn.
Qed.

Lemma StronglySorted_app_cross {A} (R : A -> A -> Prop) (l1 l2 : list A) a b :
  StronglySorted R (l1 ++ l2) -> In a l1 -> In b l2 -> R a b.
Proof.
  induction l1 as [|x l1 IH]; simpl; [done|].
  intros Hs [-> | Ha] Hb; apply StronglySorted_inv in Hs as [Hs Hx].
  - eapply List.Forall_forall in Hx; [exact Hx|]. apply in_or_app. by right.
  - by apply IH.
Qed.

End ListFacts.

(* ===================================================================== *)
(** ** Column resolver: properties *)
(* ===================================================================== *)

Section ColumnResolver.

Implicit Types (columns candidates : list string) (h cand : string).

(** What the dictionary holds under a key: the last header with that
    lower-cased form. *)
Lemma cols_dict_snoc columns h :
  cols_dict (columns ++ [h]) = <[Text.lower h := h]> (cols_dict columns).
Proof. unfold cols_dict. by rewrite foldl_app. Qed.

Lemma cols_dict_lookup_None columns k :
  cols_dict columns !! k = None <-> forall h, In h columns -> Text.lower h <> k.
Proof.
  induction columns as [|h columns IH] using rev_ind.
  - split; [intros _ h [] | intros _; apply lookup_empty].
  - rewrite cols_dict_snoc. split.
    + intros Hl h' Hin. apply lookup_insert_None in Hl as [Hl Hne].
      apply in_app_or in Hin as [Hin | [<- | []]]; [|done].
      by apply IH.
    + intros Hall. apply lookup_insert_None. split.
      * apply IH. intros h' Hin. apply Hall, in_or_app. by left.
      * apply Hall, in_or_app. right. by left.
Qed.

Lemma cols_dict_lookup_Some columns k h :
  cols_dict columns !! k = Some h <->
  exists hpre hpost, columns = hpre ++ h :: hpost /\ Text.lower h = k /\
                     forall h', In h' hpost -> Text.lower h' <> k.
Proof.
  revert h. induction columns as [|x columns IH] using rev_ind; intros h.
  - split; [unfold cols_dict; simpl; by rewrite lookup_empty |].
    intros (hpre & hpost & Heq & _). by destruct hpre.
  - rewrite cols_dict_snoc. split.
    + intros Hl. apply lookup_insert_Some in Hl as [[Hk ->] | [Hne Hl]].
      * exists columns, []. split; [done|]. split; [done|]. intros ? [].
      * apply IH in Hl as (hpre & hpost & -> & Hk & Hlast).
        exists hpre, (hpost ++ [x]). split; [by rewrite <- app_assoc|].
        split; [done|]. intros h' Hin.
        apply in_app_or in Hin as [Hin | [<- | []]]; [by apply Hlast | done].
    + intros (hpre & hpost & Heq & Hk & Hlast).
      destruct hpost as [|y hpost _] using rev_ind.
      * apply app_inj_tail in Heq as [-> ->]. rewrite Hk. apply lookup_insert_eq.
      * rewrite app_comm_cons, app_assoc in Heq.
        apply app_inj_tail in Heq as [-> ->].
        rewrite lookup_insert_ne.
        2:{ apply Hlast, in_or_app. right. by left. }
        apply IH. exists hpre, hpost. split; [done|]. split; [done|].
        intros h' Hin. apply Hlast, in_or_app. by left.
Qed.

End ColumnResolver.

(** C7 (as amended): [find_col] answers for the first candidate, in the
    caller's priority order, whose lower-cased form equals the lower-cased
    form of some header, and it returns the LAST header of the table with
    that lower-cased form; it answers [None] exactly when no candidate
    matches any header. *)
Theorem find_col_first_candidate_last_header (columns candidates : list string) :
  match find_col columns candidates with
  | None =>
      forall cand h, In cand candidates -> In h columns ->
                     Text.lower h <> Text.lower cand
  | Some h =>
      exists pre cand post hpre hpost,
        candidates = pre ++ cand :: post /\
        (forall c' h', In c' pre -> In h' columns ->
                       Text.lower h' <> Text.lower c') /\
        columns = hpre ++ h :: hpost /\
        Text.lower h = Text.lower cand /\
        (forall h', In h' hpost -> Text.lower h' <> Text.lower cand)
  end.
Proof.
  unfold find_col. induction candidates as [|cand rest IH]; simpl.
  - intros ? ? [].
  - destruct (cols_dict columns !! Text.lower cand) as [h|] eqn:Hl.
    + apply cols_dict_lookup_Some in Hl as (hpre & hpost & Hc & Hk & Hlast).
      exists [], cand, rest, hpre, hpost. repeat split; done.
    + pose proof (proj1 (cols_dict_lookup_None _ _) Hl) as Hnone.
      destruct (find_col_loop (cols_dict columns) rest) as [h|].
      * destruct IH as (pre & c & post & hpre & hpost & -> & Hpre & Hc & Hk & Hlast).
        exists (cand :: pre), c, post, hpre, hpost.
        split; [done|]. split; [|done].
        intros c' h' [<- | Hin] Hh; [by apply Hnone | by apply Hpre].
      * intros c h [<- | Hin] Hh; [by apply Hnone | by apply IH].
Qed.

(** C7 (the resolver on a table with two headers equal up to case). *)
Lemma find_col_first_candidate_last_header_witness :
  exists pre cand post hpre hpost,
    ["Customer"; "Client"] = pre ++ cand :: post /\
    (forall c' h', In c' pre -> In h' ["Client"; "Amount"; "CLIENT"] ->
                   Text.lower h' <> Text.lower c') /\
    ["Client"; "Amount"; "CLIENT"] = hpre ++ "CLIENT" :: hpost /\
    Text.lower "CLIENT" = Text.lower cand /\
    (forall h', In h' hpost -> Text.lower h' <> Text.lower cand).
Proof.
  exact (find_col_first_candidate_last_header
           ["Client"; "Amount"; "CLIENT"] ["Customer"; "Client"]).
Defined.

(** C7 (counterexample): with the headers ["Client"; "CLIENT"], equal
    case-insensitively, the candidate ["Client"] resolves to the second
    header, where the specification's resolver picks the first. *)
Lemma find_col_duplicate_headers_picks_last :
  find_col ["Client"; "CLIENT"] ["Client"] = Some "CLIENT" /\
  resolve_first_header ["Client"; "CLIENT"] ["Client"] = Some "Client".
Proof. split; vm_compute; reflexivity. Qed.

(* ===================================================================== *)
(** ** Date normaliser: properties *)
(* ===================================================================== *)

Section DateNormalizer.
Import Strptime.

Lemma digit_val_digit_char (k : Z) :
  (0 <= k <= 9)%Z -> digit_val (digit_char k) = Some k.
Proof.
  intros Hk.
  assert (k = 0 \/ k = 1 \/ k = 2 \/ k = 3 \/ k = 4 \/ k = 5 \/ k = 6 \/
          k = 7 \/ k = 8 \/ k = 9)%Z as Hcases by lia.
  repeat (destruct Hcases as [-> | Hcases]; [reflexivity|]).
  by subst.
Qed.

Lemma parse_1or2_pad2 (n : Z) (rest : string) :
  (0 <= n <= 99)%Z -> parse_1or2 (pad2 n rest) = Some (n, rest).
Proof.
  intros Hn. unfold parse_1or2, pad2.
  rewrite !digit_val_digit_char by (Z.to_euclidean_division_equations; lia).
  do 2 f_equal. Z.to_euclidean_division_equations; lia.
Qed.

Lemma parse_year_pad4 (n : Z) (rest : string) :
  (0 <= n <= 9999)%Z -> parse_year (pad4 n rest) = Some (n, rest).
Proof.
  intros Hn. unfold parse_year, pad4, pad2.
  rewrite !digit_val_digit_char by (Z.to_euclidean_division_equations; lia).
  do 2 f_equal. Z.to_euclidean_division_equations; lia.
Qed.

Lemma expect_dash_dash (rest : string) :
  expect_dash (String "-"%char rest) = Some rest.
Proof. reflexivity. Qed.

Lemma days_in_month_le_31 (y m : Z) : (days_in_month y m <= 31)%Z.
Proof.
  unfold days_in_month.
  repeat match goal with |- context [if ?b then _ else _] => destruct b end; lia.
Qed.

(** Reading back the ISO text of a date gives its fields. *)
Lemma parse_fields_iso_format (t : Timestamp) :
  valid_date t = true ->
  parse_fields (iso_format t) = Some (ts_year t, ts_month t, ts_day t).
Proof.
  unfold valid_date. rewrite !andb_true_iff, !Z.leb_le.
  intros [[[[[[Hy0 Hy1] Hm0] Hm1] Hd0] Hd1] _].
  pose proof (days_in_month_le_31 (ts_year t) (ts_month t)).
  unfold parse_fields, iso_format.
  rewrite parse_year_pad4, expect_dash_dash by lia.
  rewrite parse_1or2_pad2, expect_dash_dash by lia.
  by rewrite parse_1or2_pad2 by lia.
Qed.

Lemma to_datetime_strict_iso_format (t : Timestamp) :
  valid_date t = true -> in_ns_bounds t = true ->
  to_datetime_strict (iso_format t) = Some t.
Proof.
  intros Hv Hb. unfold to_datetime_strict.
  rewrite parse_fields_iso_format by done.
  assert (mkTs (ts_year t) (ts_month t) (ts_day t) 0 = t) as ->.
  { destruct t as [y m d n]. simpl. f_equal.
    unfold valid_date in Hv. rewrite !andb_true_iff in Hv.
    destruct Hv as [_ Hn]. simpl in Hn. symmetry. by apply Z.eqb_eq. }
  rewrite Hv. simpl. by rewrite Hb.
Qed.

Lemma mask_assign_lookup_false {A} (mask : list bool) (vals out : list (option A)) i :
  mask !! i = Some false -> mask_assign mask vals out !! i = out !! i.
Proof.
  revert vals out i. induction mask as [|b mask IH]; intros vals out i Hi.
  - done.
  - destruct out as [|o out]; [done|]. destruct i as [|i]; simpl in *.
    + injection Hi as ->. done.
    + destruct b; [destruct vals|]; simpl; by apply IH.
Qed.

Lemma mask_assign_own_values {A} (mask : list bool) (src out : list (option A)) i :
  length src = length mask -> length out = length mask ->
  mask !! i = Some true ->
  mask_assign mask (boolean_index mask src) out !! i = src !! i.
Proof.
  revert src out i. induction mask as [|b mask IH]; intros src out i Hs Ho Hi.
  - done.
  - destruct src as [|x src]; [done|]. destruct out as [|o out]; [done|].
    simpl in Hs, Ho. destruct i as [|i]; simpl in Hi.
    + injection Hi as ->. done.
    + destruct b; simpl; apply IH; auto with lia.
Qed.

Context {pd : Pandas}.

(** Where the strict tier finds a date, that date is the result: the
    lenient tier only writes where the strict tier gave NaT. *)
Lemma normalize_period_strict_wins (series : list Cell) i c t :
  series !! i = Some c ->
  to_datetime_strict (Text.strip (astype_str series c)) = Some t ->
  normalize_period series !! i = Some (Some t).
Proof.
  intros Hi Ht. unfold normalize_period.
  set (s := map (fun c => Text.strip (astype_str series c)) series).
  set (parsed := map to_datetime_strict s).
  set (m := map notna parsed).
  assert (parsed !! i = Some (Some t)) as Hp.
  { unfold parsed, s. rewrite !lookup_map, Hi. simpl. by rewrite Ht. }
  assert (m !! i = Some true) as Hm.
  { unfold m. by rewrite lookup_map, Hp. }
  assert (mask_assign m (boolean_index m parsed) (repeat None (length series)) !! i
          = Some (Some t)) as Hout.
  { rewrite mask_assign_own_values; auto.
    - unfold m. by rewrite length_map.
    - unfold m, parsed, s. by rewrite repeat_length, !length_map. }
  destruct (existsb negb m); [|done].
  rewrite mask_assign_lookup_false; [done|].
  by rewrite lookup_map, Hm.
Qed.
End DateNormalizer.

(** C3 (as amended): a cell whose text, once stripped of the white space
    [str.strip()] removes, is the ISO form [YYYY-MM-DD] of a calendar date
    that [datetime64[ns]] can hold (1677-09-22 to 2262-04-11) is resolved
    by the strict tier to exactly that date, and this is the value of the
    normaliser at that position whatever the lenient parser does. *)
Theorem normalize_period_iso_in_range `{Pandas} (series : list Cell) (i : nat)
  (c : Cell) (t : Timestamp) :
  series !! i = Some c ->
  Text.strip (astype_str series c) = Strptime.iso_format t ->
  valid_date t = true ->
  in_ns_bounds t = true ->
  Strptime.to_datetime_strict (Text.strip (astype_str series c)) = Some t /\
  normalize_period series !! i = Some (Some t).
Proof.
  intros Hi Htxt Hv Hb.
  assert (Strptime.to_datetime_strict (Text.strip (astype_str series c)) = Some t)
    as Hs.
  { rewrite Htxt. by apply to_datetime_strict_iso_format. }
  split; [done|]. by eapply normalize_period_strict_wins.
Qed.

(** C3 (an ISO date between a no-break space, U+00A0, and a file
    separator, U+001C, after a cell that only the lenient tier reads). *)
Lemma normalize_period_iso_in_range_witness :
  let cell :=
    CText (String (Ascii.ascii_of_nat 194)
             (String (Ascii.ascii_of_nat 160)
                (String.append " 2025-04-03"
                   (String (Ascii.ascii_of_nat 28) "")))) in
  Strptime.to_datetime_strict
    (Text.strip (@astype_str pandas_ref [CText "03/04/2025"; cell] cell))
    = Some (mkTs 2025 4 3 0) /\
  @normalize_period pandas_ref [CText "03/04/2025"; cell] !! 1%nat
    = Some (Some (mkTs 2025 4 3 0)).
Proof.
  intros cell.
  apply (@normalize_period_iso_in_range pandas_ref
           [CText "03/04/2025"; cell] 1 cell (mkTs 2025 4 3 0)); reflexivity.
Defined.

(** C3 (counterexample): ["1500-01-01"] is a valid ISO date, yet the strict
    tier gives NaT for it, the text goes on to the lenient tier, and the
    normaliser returns no date. *)
Lemma normalize_period_iso_out_of_range :
  valid_date (mkTs 1500 1 1 0) = true /\
  Text.strip (@astype_str pandas_ref [CText "1500-01-01"] (CText "1500-01-01"))
    = Strptime.iso_format (mkTs 1500 1 1 0) /\
  Strptime.to_datetime_strict "1500-01-01" = None /\
  @normalize_period pandas_ref [CText "1500-01-01"] = [None].
Proof. repeat split; vm_compute; reflexivity. Qed.

(** The same for every instance that leaves a text cell as it is: the
    result is never that date. *)
Lemma normalize_period_out_of_range_any_parser `{Pandas} :
  astype_str_keeps_text ->
  normalize_period [CText "1500-01-01"] <> [Some (mkTs 1500 1 1 0)].
Proof.
  intros Hkeep. unfold normalize_period. simpl.
  rewrite (Hkeep [CText "1500-01-01"] "1500-01-01") by by left.
  change (Text.strip "1500-01-01") with "1500-01-01".
  change (Strptime.to_datetime_strict "1500-01-01") with (@None Timestamp).
  simpl.
  destruct (to_datetime_dayfirst _) as [|[t|] l]; simpl; try discriminate.
  unfold ns_coerce. destruct (in_ns_bounds t) eqn:Hb; [|discriminate].
  intros [= ->]. discriminate Hb.
Qed.

(* ===================================================================== *)
(** ** Sorting and grouping: properties *)
(* ===================================================================== *)

Section InsertionSortProps.

Context {A : Type} (leb : A -> A -> bool).

Lemma insert_sorted_perm (x : A) (l : list A) :
  Permutation (insert_sorted leb x l) (x :: l).
Proof.
  induction l as [|y l IH]; simpl; [done|].
  destruct (leb x y); [done|].
  rewrite IH. apply perm_swap.
Qed.

Lemma isort_perm (l : list A) : Permutation (isort leb l) l.
Proof.
  induction l as [|x l IH]; simpl; [done|].
  by rewrite insert_sorted_perm, IH.
Qed.

Lemma isort_In (l : list A) (x : A) : In x (isort leb l) <-> In x l.
Proof.
  split; apply Permutation_in; [|symmetry]; apply isort_perm.
Qed.

Lemma isort_length (l : list A) : length (isort leb l) = length l.
Proof. apply Permutation_length, isort_perm. Qed.

Hypothesis leb_total : forall a b, leb a b = true \/ leb b a = true.
Hypothesis leb_trans :
  forall a b c, leb a b = true -> leb b c = true -> leb a c = true.

Let le (a b : A) : Prop := leb a b = true.

Lemma insert_sorted_sorted (x : A) (l : list A) :
  StronglySorted le l -> StronglySorted le (insert_sorted leb x l).
Proof.
  induction 1 as [|y l Hs IH Hy]; simpl.
  - repeat constructor.
  - destruct (leb x y) eqn:Hxy.
    + constructor; [by constructor|]. constructor; [done|].
      eapply Forall_impl; [exact Hy|]. intros z Hz. by eapply leb_trans.
    + constructor; [done|].
      eapply Permutation_Forall; [symmetry; apply insert_sorted_perm|].
      constructor; [|done]. by destruct (leb_total x y) as [Ht | Ht]; [congruence|].
Qed.

Lemma isort_sorted (l : list A) : StronglySorted le (isort leb l).
Proof.
  induction l as [|x l IH]; simpl; [constructor | by apply insert_sorted_sorted].
Qed.

End InsertionSortProps.

(* ===================================================================== *)
(** ** The reference instance has the properties assumed of pandas *)
(* ===================================================================== *)

Section ReferenceInstance.

Lemma pandas_ref_keeps_text : @astype_str_keeps_text pandas_ref.
Proof. intros col s _. reflexivity. Qed.

Lemma pandas_ref_null_text : @astype_str_null_text pandas_ref.
Proof.
  intros col _. simpl. destruct (is_number_column col); simpl; auto.
Qed.

Lemma pandas_ref_sort_permutes : @sort_values_permutes pandas_ref.
Proof. intros l. apply isort_perm. Qed.

Lemma revenue_geb_total (a b : string * Num) :
  revenue_geb a b = true \/ revenue_geb b a = true.
Proof.
  unfold revenue_geb. destruct a as [ka [| |x]], b as [kb [| |y]]; simpl; auto.
  destruct (Qle_bool y x) eqn:H1; [by left | right].
  apply Qle_bool_iff. apply Qlt_le_weak, Qnot_le_lt. intros Hc.
  apply Qle_bool_iff in Hc. congruence.
Qed.

Lemma revenue_geb_trans (a b c : string * Num) :
  revenue_geb a b = true -> revenue_geb b c = true -> revenue_geb a c = true.
Proof.
  unfold revenue_geb.
  destruct a as [ka [| |x]], b as [kb [| |y]], c as [kc [| |z]]; simpl; try done.
  rewrite !Qle_bool_iff. intros H1 H2. by eapply Qle_trans.
Qed.

Lemma revenue_geb_not_below (a b : string * Num) :
  revenue_geb a b = true -> revenue_not_below a b.
Proof.
  unfold revenue_geb, revenue_not_below.
  destruct a as [ka va], b as [kb vb]; simpl. intros Hab x y -> ->.
  by apply Qle_bool_iff.
Qed.

Lemma isort_revenue_descending (l : list (string * Num)) :
  StronglySorted revenue_not_below (isort revenue_geb l).
Proof.
  pose proof (isort_sorted revenue_geb revenue_geb_total revenue_geb_trans l)
    as Hs.
  induction Hs as [|x s Hs IH Hx]; constructor; [done|].
  eapply List.Forall_impl; [|exact Hx]. intros y. apply revenue_geb_not_below.
Qed.

Lemma pandas_ref_sort_descending : @sort_values_descending pandas_ref.
Proof. intros l. apply isort_revenue_descending. Qed.

End ReferenceInstance.

(* ===================================================================== *)
(** ** Fact builder: properties *)
(* ===================================================================== *)

Section FactBuilder.

Context {pd : Pandas}.

Lemma nth_series_sub (a b : list Num) i :
  nth i (series_sub a b) Null = fsub (nth i a Null) (nth i b Null).
Proof.
  unfold series_sub. revert b i.
  induction a as [|x a IH]; intros b i;
    destruct b as [|y b], i as [|i]; simpl; rewrite ?IH; try done;
    unfold fsub; repeat case_match; done.
Qed.

(** A fact table that is built is built from its five derived columns. *)
Lemma fact_Ok (df : DataFrame) (rows : list FactRecord) :
  fact df = Ok rows ->
  exists period revenue cost client,
    fact_Period df = Ok period /\ fact_Revenue df = Ok revenue /\
    fact_Cost df = Ok cost /\ fact_Client df = Ok client /\
    rows = fact_rows (df_len df) client period revenue cost
             (series_sub revenue cost).
Proof.
  unfold fact.
  destruct (fact_Period df) as [period|]; [|done].
  destruct (fact_Revenue df) as [revenue|]; [|done].
  destruct (fact_Cost df) as [cost|]; [|done].
  destruct (fact_Client df) as [client|]; [|done].
  intros [= <-]. by exists period, revenue, cost, client.
Qed.

Lemma forecast_Ok (df : DataFrame) (rows : list ForecastRecord) :
  forecast df = Ok rows ->
  exists period amount client,
    forecast_Period df = Ok period /\ forecast_Forecast df = Ok amount /\
    forecast_Client df = Ok client /\
    rows = forecast_rows (df_len df) client period amount.
Proof.
  unfold forecast.
  destruct (forecast_Period df) as [period|]; [|done].
  destruct (forecast_Forecast df) as [amount|]; [|done].
  destruct (forecast_Client df) as [client|]; [|done].
  intros [= <-]. by exists period, amount, client.
Qed.

Lemma fact_rows_lookup n client period revenue cost gp i :
  (i < n)%nat ->
  fact_rows n client period revenue cost gp !! i =
    Some {| f_Client := nth i client "";
            f_Period := nth i period None;
            f_Revenue := nth i revenue Null;
            f_Cost := nth i cost Null;
            f_GP := nth i gp Null |}.
Proof.
  intros Hi. unfold fact_rows. rewrite lookup_map.
  by rewrite lookup_seq_lt.
Qed.

Lemma fact_rows_In n client period revenue cost gp row :
  In row (fact_rows n client period revenue cost gp) ->
  exists i, (i < n)%nat /\
            f_Client row = nth i client "" /\
            f_Period row = nth i period None /\
            f_Revenue row = nth i revenue Null /\
            f_Cost row = nth i cost Null /\
            f_GP row = nth i gp Null.
Proof.
  unfold fact_rows. intros Hin. apply in_map_iff in Hin as (i & <- & Hi).
  apply in_seq in Hi. exists i. split; [lia | done].
Qed.

Lemma fact_length (df : DataFrame) (rows : list FactRecord) :
  fact df = Ok rows -> length rows = df_len df.
Proof.
  intros Hf. apply fact_Ok in Hf as (? & ? & ? & ? & _ & _ & _ & _ & ->).
  unfold fact_rows. by rewrite length_map, length_seq.
Qed.

(** A column is read when its header, if one was resolved, heads one
    column only. *)
Lemma client_column_Some (df : DataFrame) (c : string) (client : list string) :
  client_column df (Some c) = Ok client ->
  exists series, df_getitem df c = Ok series /\
                 client = map (astype_str series) series.
Proof.
  unfold client_column. destruct (df_getitem df c) as [series|]; [|done].
  intros [= <-]. by exists series.
Qed.

Lemma number_column_None (df : DataFrame) (col : list Num) :
  number_column df None = Ok col -> col = repeat Null (df_len df).
Proof. by intros [= <-]. Qed.

Lemma period_column_None (df : DataFrame) (col : list (option Timestamp)) :
  period_column df None = Ok col -> col = repeat None (df_len df).
Proof. by intros [= <-]. Qed.

End FactBuilder.

(** C4: in every row of the fact table the gross profit is revenue minus
    cost (the float64 difference) when both are numbers, and it is null or
    NaN as soon as revenue or cost is: null when either is null, NaN
    otherwise; no zero stands in for a missing operand. *)
Theorem fact_gross_profit `{Pandas} (df_source : DataFrame)
  (rows : list FactRecord) (row : FactRecord) :
  fact df_source = Ok rows ->
  In row rows ->
  f_GP row = match f_Revenue row, f_Cost row with
             | Fin revenue, Fin cost => Fin (float_sub revenue cost)
             | Null, _ => Null
             | _, Null => Null
             | _, _ => NaN
             end.
Proof.
  intros Hf Hin.
  apply fact_Ok in Hf as (period & revenue & cost & client & _ & _ & _ & _ & ->).
  apply fact_rows_In in Hin as (i & _ & _ & _ & -> & -> & ->).
  apply nth_series_sub.
Qed.

Lemma fact_gross_profit_witness :
  let row := {| f_Client := "<NA>"; f_Period := Some (mkTs 2025 2 10 0);
                f_Revenue := Fin 70; f_Cost := Null; f_GP := Null |} in
  exists rows,
    @fact pandas_ref sheet1 = Ok rows /\ In row rows /\
    f_GP row = match f_Revenue row, f_Cost row with
               | Fin revenue, Fin cost => Fin (@float_sub pandas_ref revenue cost)
               | Null, _ => Null
               | _, Null => Null
               | _, _ => NaN
               end.
Proof.
  intros row.
  destruct (@fact pandas_ref sheet1) as [rows|e] eqn:Hf; [|discriminate Hf].
  assert (In row rows) as Hin.
  { vm_compute in Hf. injection Hf as <-. right. left. reflexivity. }
  exists rows. split; [reflexivity|]. split; [exact Hin|].
  exact (@fact_gross_profit pandas_ref sheet1 rows row Hf Hin).
Defined.

(** C8 (as amended): whenever the fact table is built, the sentinel
    ["(Unmapped)"] is the client key of every row exactly when no client
    column is resolved; when a client column is resolved each key is the
    cell written as text by [astype(str)], so an empty cell gets the text
    of a null (["nan"], ["<NA>"], ["None"] or ["NaT"], by the column),
    which is never the sentinel, and a cell that holds the text
    ["(Unmapped)"] gets the very value the sentinel has. *)
Theorem fact_Client_coercion `{Pandas} (df_source : DataFrame)
  (rows : list FactRecord) :
  astype_str_keeps_text ->
  astype_str_null_text ->
  fact df_source = Ok rows ->
  match find_col (df_columns df_source) ["Client"; "Customer"; "Account"] with
  | None =>
      forall row, In row rows -> f_Client row = "(Unmapped)"
  | Some c_client =>
      exists series,
        df_getitem df_source c_client = Ok series /\
        forall i cell,
          (i < df_len df_source)%nat ->
          series !! i = Some cell ->
          exists row,
            rows !! i = Some row /\
            f_Client row = astype_str series cell /\
            match cell with
            | CNull => In (f_Client row) ["nan"; "<NA>"; "None"; "NaT"] /\
                       f_Client row <> "(Unmapped)"
            | CText s => f_Client row = s
            | CNum _ | CDate _ => True
            end
  end.
Proof.
  intros Hkeep Hnull Hf.
  apply fact_Ok in Hf as (period & revenue & cost & client & _ & _ & _ & Hc & ->).
  unfold fact_Client in Hc.
  destruct (find_col _ _) as [c_client|].
  - apply client_column_Some in Hc as (series & Hs & ->).
    exists series. split; [done|]. intros i cell Hi Hcell.
    eexists. split; [by apply fact_rows_lookup|]. simpl.
    erewrite nth_lookup_default; [|by rewrite lookup_map, Hcell].
    split; [done|].
    assert (In cell series) as Hin.
    { apply list_elem_of_In. by eapply list_elem_of_lookup_2. }
    destruct cell as [|s|q|t]; [|by apply Hkeep|done|done].
    pose proof (Hnull series Hin) as Htxt. split; [exact Htxt|].
    intros Heq. rewrite Heq in Htxt. simpl in Htxt.
    repeat (destruct Htxt as [Htxt | Htxt]; [discriminate Htxt|]). exact Htxt.
  - injection Hc as <-. intros row Hin.
    apply fact_rows_In in Hin as (i & Hi & -> & _).
    apply nth_repeat_lt. lia.
Qed.

Lemma fact_Client_coercion_witness :
  exists rows row,
    @fact pandas_ref sheet1 = Ok rows /\
    rows !! 2%nat = Some row /\ f_Client row = "(Unmapped)".
Proof.
  destruct (@fact pandas_ref sheet1) as [rows|e] eqn:Hf; [|discriminate Hf].
  pose proof (@fact_Client_coercion pandas_ref sheet1 rows
                pandas_ref_keeps_text pandas_ref_null_text Hf) as Hc.
  change (find_col (df_columns sheet1) ["Client"; "Customer"; "Account"])
    with (Some "Client") in Hc.
  destruct Hc as (series & Hs & Hrows).
  injection Hs as <-.
  destruct (Hrows 2%nat (CText "(Unmapped)")) as (row & Hrow & _ & Htxt);
    [simpl; lia | reflexivity |].
  exists rows, row. split; [reflexivity|]. split; [exact Hrow | exact Htxt].
Defined.

(** C8 (counterexample): the client column of [sheet1] is resolved and
    its second cell is empty; the key of that row is the text of a null,
    not the sentinel. *)
Lemma empty_client_cell_is_not_unmapped :
  find_col (df_columns sheet1) ["Client"; "Customer"; "Account"] = Some "Client" /\
  (exists series, df_getitem sheet1 "Client" = Ok series /\
                  series !! 1%nat = Some CNull) /\
  (exists rows, @fact pandas_ref sheet1 = Ok rows /\
                f_Client <$> (rows !! 1%nat) = Some "<NA>") /\
  "<NA>" <> "(Unmapped)".
Proof.
  split; [vm_compute; reflexivity|].
  split; [eexists; split; vm_compute; reflexivity|].
  split; [eexists; split; vm_compute; reflexivity|].
  discriminate.
Qed.

(** The builder raises on a sheet in which two columns are headed
    ["Client"]. *)
Example fact_two_client_columns :
  find_col (df_columns sheet_two_clients) ["Client"; "Customer"; "Account"]
    = Some "Client" /\
  forall pd : Pandas, @fact pd sheet_two_clients = Raised NotOneColumn.
Proof. split; [vm_compute; reflexivity | intros pd; reflexivity]. Qed.

(* ===================================================================== *)
(** ** Filter engine: properties *)
(* ===================================================================== *)

Section FilterEngineProps.

Context {R : Type} (client : R -> string) (period : R -> option Timestamp).

Lemma boolean_index_map (f : R -> bool) (rows : list R) :
  boolean_index (map f rows) rows = List.filter f rows.
Proof.
  induction rows as [|r rows IH]; simpl; [done|].
  rewrite IH. by destruct (f r).
Qed.

(** The mask, computed column by column, is the record predicate applied
    row by row. *)
Lemma row_mask_pointwise (rows : list R) sel_clients sel_date :
  row_mask client period rows sel_clients sel_date
  = map (passes_filter client period sel_clients sel_date) rows.
Proof.
  unfold row_mask, passes_filter, isin, between.
  destruct sel_clients as [|c0 sel]; simpl mask_and.
  - induction rows as [|r rows IH]; simpl; [done|]. by rewrite IH.
  - induction rows as [|r rows IH]; [done|].
    cbn [map zip_with]. by rewrite IH.
Qed.

Lemma existsb_eqb_In (c : string) (l : list string) :
  existsb (String.eqb c) l = true <-> In c l.
Proof.
  rewrite existsb_exists. split.
  - intros (x & Hin & Heq). apply String.eqb_eq in Heq. by subst.
  - intros Hin. exists c. split; [done|]. apply String.eqb_refl.
Qed.

Lemma passes_filter_true sel_clients sel_date (r : R) :
  passes_filter client period sel_clients sel_date r = true <->
  (sel_clients = [] \/ In (client r) sel_clients) /\
  exists t, period r = Some t /\
            ts_leb (fst sel_date) t = true /\ ts_leb t (snd sel_date) = true.
Proof.
  unfold passes_filter. rewrite andb_true_iff.
  apply Morphisms_Prop.and_iff_morphism.
  - destruct sel_clients as [|c0 sel].
    + split; auto.
    + rewrite existsb_eqb_In. split; [auto | by intros [? | ?]].
  - destruct (period r) as [t|].
    + rewrite andb_true_iff. split; [eauto | by intros (? & [= <-] & ?)].
    + split; [done | by intros (? & ? & _)].
Qed.

End FilterEngineProps.

(** C5: the filter keeps, in their order, exactly the records whose client
    is in the client set (every client when the set is empty) and whose
    period is not null and lies in [rangeStart, rangeEnd], ends included;
    a record with a null period is never kept. *)
Theorem filter_rows_exact {R : Type} (client : R -> string)
  (period : R -> option Timestamp) (records : list R) (clientSet : list string)
  (rangeStart rangeEnd : Timestamp) :
  filter_rows client period records clientSet (rangeStart, rangeEnd)
  = List.filter (passes_filter client period clientSet (rangeStart, rangeEnd)) records
  /\
  (forall r,
     In r (filter_rows client period records clientSet (rangeStart, rangeEnd)) <->
     In r records /\
     (clientSet = [] \/ In (client r) clientSet) /\
     exists t, period r = Some t /\
               ts_leb rangeStart t = true /\ ts_leb t rangeEnd = true)
  /\
  (forall r,
     In r (filter_rows client period records clientSet (rangeStart, rangeEnd)) ->
     period r <> None).
Proof.
  assert (filter_rows client period records clientSet (rangeStart, rangeEnd)
          = List.filter (passes_filter client period clientSet (rangeStart, rangeEnd))
              records) as Heq.
  { unfold filter_rows. rewrite row_mask_pointwise. apply boolean_index_map. }
  assert (forall r,
     In r (filter_rows client period records clientSet (rangeStart, rangeEnd)) <->
     In r records /\
     (clientSet = [] \/ In (client r) clientSet) /\
     exists t, period r = Some t /\
               ts_leb rangeStart t = true /\ ts_leb t rangeEnd = true) as Hiff.
  { intros r. rewrite Heq, filter_In, passes_filter_true. reflexivity. }
  split; [done|]. split; [done|].
  intros r Hin. apply Hiff in Hin as (_ & _ & t & -> & _). done.
Qed.

(* ===================================================================== *)
(** ** KPIs *)
(* ===================================================================== *)

Section Sums.

(** A sum is a number or NaN, never a null. *)
Lemma sum_with_not_null (sum : list Q -> Q) (l : list Num) :
  sum_with sum l <> Null.
Proof.
  unfold sum_with. destruct (existsb is_NaN l); [done|].
  by destruct (finite_values l).
Qed.

(** A sum is NaN exactly when one of its terms is. *)
Lemma sum_with_NaN (sum : list Q -> Q) (l : list Num) :
  sum_with sum l = NaN <-> In NaN l.
Proof.
  unfold sum_with. destruct (existsb is_NaN l) eqn:He.
  - split; [intros _|done]. apply existsb_exists in He as (x & Hin & Hx).
    by destruct x.
  - split; [by destruct (finite_values l)|]. intros Hin.
    assert (existsb is_NaN l = true); [|congruence].
    apply existsb_exists. by exists NaN.
Qed.

(** Over nulls only, a sum is 0. *)
Lemma sum_with_all_null (sum : list Q -> Q) (l : list Num) :
  (forall x, In x l -> x = Null) -> sum_with sum l = Fin 0.
Proof.
  intros Hall. unfold sum_with.
  assert (existsb is_NaN l = false) as ->.
  { apply not_true_is_false. intros He.
    apply existsb_exists in He as (x & Hin & Hx). by rewrite (Hall x Hin) in Hx. }
  assert (finite_values l = []) as ->; [|done].
  unfold finite_values. induction l as [|x l IH]; [done|]. simpl.
  rewrite (Hall x) by by left. apply IH. intros y Hy. apply Hall. by right.
Qed.

End Sums.

(** C9: the KPI block never divides by a zero revenue sum:
    it always returns; the margin is null (NaN) whenever the revenue sum
    it computed is 0, whatever the cost and gross-profit sums are, and
    also when the revenue sum is NaN; otherwise it is gross profit over
    revenue times 100 in float64 arithmetic. *)
Theorem sumKpis_margin_on_zero_revenue `{Pandas} (facts : list FactRecord) :
  exists k,
    sumKpis facts = Ok k /\
    kpi_rev k = Kpi.rev facts /\
    kpi_cost k = Kpi.cost facts /\
    kpi_gp k = Kpi.gp facts /\
    (forall x, Kpi.rev facts = Fin x -> (x == 0)%Q -> kpi_margin k = NaN) /\
    (num_isna (Kpi.rev facts) = true -> kpi_margin k = NaN) /\
    (forall x, Kpi.rev facts = Fin x -> ~ (x == 0)%Q ->
       kpi_margin k = match Kpi.gp facts with
                      | Fin g => Fin (float_mul (float_div g x) 100)
                      | gp => gp
                      end).
Proof.
  unfold sumKpis, Kpi.margin.
  pose proof (sum_with_not_null sum_floats (map f_GP facts)) as Hgp.
  fold (series_sum (map f_GP facts)) in Hgp. fold (Kpi.gp facts) in Hgp.
  destruct (Kpi.rev facts) as [| |x] eqn:Hrev; simpl.
  - eexists. split; [reflexivity|]. repeat split; done.
  - eexists. split; [reflexivity|]. repeat split; done.
  - destruct (Qeq_bool x 0) eqn:Hz; simpl.
    + eexists. split; [reflexivity|]. repeat split; simpl; try done.
      intros y [= <-] Hne. apply Qeq_bool_iff in Hz. contradiction.
    + eexists. split; [reflexivity|]. repeat split; simpl; try done.
      * intros y [= <-] Heq. apply Qeq_bool_iff in Heq. congruence.
      * intros y [= <-] _. by destruct (Kpi.gp facts).
Qed.

(** C9 (revenues 50 and -50, costs 30 and 10). *)
Lemma sumKpis_margin_on_zero_revenue_witness :
  exists k,
    @sumKpis pandas_ref facts_zero_revenue = Ok k /\
    kpi_rev k = Fin 0 /\ kpi_cost k = Fin 40 /\ kpi_gp k = Fin (-40) /\
    kpi_margin k = NaN.
Proof.
  destruct (@sumKpis_margin_on_zero_revenue pandas_ref facts_zero_revenue)
    as (k & Hk & Hrev & Hcost & Hgp & Hzero & _).
  exists k. split; [exact Hk|].
  split; [exact Hrev|]. split; [exact Hcost|]. split; [exact Hgp|].
  apply (Hzero 0%Q); reflexivity.
Defined.

(** C1 (the code at the failing input): on the empty record set the three
    sums are 0 and only the margin is null, so the cards show R0 for
    revenue, cost and gross profit and "No data" for the margin alone. *)
Lemma sumKpis_empty_shows_zero `{Pandas} :
  sumKpis [] = Ok {| kpi_rev := Fin 0; kpi_cost := Fin 0;
                     kpi_gp := Fin 0; kpi_margin := NaN |} /\
  render_kpis [] = Ok [Shown 0; Shown 0; Shown 0; NoData].
Proof. split; reflexivity. Qed.

(** The same through the filter: a client selection that matches no row of
    [sheet1] leaves no record, and the revenue card shows 0. *)
Lemma sumKpis_empty_selection_shows_zero :
  exists rows,
    @fact pandas_ref sheet1 = Ok rows /\
    fact_f rows ["Nobody"] (mkTs 2024 1 1 0, mkTs 2025 12 31 0) = [] /\
    @render_kpis pandas_ref
      (fact_f rows ["Nobody"] (mkTs 2024 1 1 0, mkTs 2025 12 31 0))
    = Ok [Shown 0; Shown 0; Shown 0; NoData].
Proof. eexists. split; [vm_compute; reflexivity|]. split; reflexivity. Qed.

(** One cell that is NaN in the revenue column makes the revenue sum and
    the margin NaN: both cards show "No data". *)
Lemma sumKpis_NaN_revenue `{Pandas} (facts : list FactRecord) (r : FactRecord) :
  In r facts -> f_Revenue r = NaN ->
  exists k, sumKpis facts = Ok k /\ kpi_rev k = NaN /\ kpi_margin k = NaN.
Proof.
  intros Hin Hr.
  assert (Kpi.rev facts = NaN) as Hrev.
  { apply sum_with_NaN. rewrite <- Hr. by apply in_map. }
  unfold sumKpis, Kpi.margin. rewrite Hrev. simpl.
  eexists. split; [reflexivity|]. by split.
Qed.

Section GroupByProps.

Context {pd : Pandas}.
Context {R K : Type} (key : R -> K) (val : R -> Num).
Context (keqb kleb : K -> K -> bool).
Hypothesis keqb_eq : forall a b, keqb a b = true <-> a = b.

Lemma unique_In (l : list K) (k : K) : In k (unique keqb l) <-> In k l.
Proof.
  induction l as [|x l IH]; [done|]. cbn [unique In].
  rewrite filter_In, IH. split.
  - intros [-> | [Hin _]]; auto.
  - intros [-> | Hin]; [by left|].
    destruct (keqb x k) eqn:Hxk.
    + left. by apply keqb_eq.
    + right. by split.
Qed.

Lemma unique_NoDup (l : list K) : List.NoDup (unique keqb l).
Proof.
  induction l as [|x l IH]; cbn [unique]; constructor.
  - rewrite filter_In. intros [_ Hx].
    assert (keqb x x = true) as Hxx by by apply keqb_eq.
    by rewrite Hxx in Hx.
  - by apply List.NoDup_filter.
Qed.

Lemma group_keys_In (rows : list R) (k : K) :
  In k (group_keys key keqb kleb rows) <-> In k (map key rows).
Proof. unfold group_keys. by rewrite isort_In, unique_In. Qed.

Lemma group_keys_NoDup (rows : list R) : List.NoDup (group_keys key keqb kleb rows).
Proof.
  unfold group_keys.
  eapply Permutation_NoDup; [symmetry; apply isort_perm | apply unique_NoDup].
Qed.

Lemma groupby_sum_keys (rows : list R) :
  map fst (groupby_sum key val keqb kleb rows) = group_keys key keqb kleb rows.
Proof.
  unfold groupby_sum. rewrite map_map. simpl. apply map_id.
Qed.

(** One row per key of the input, holding the sum of that key's rows. *)
Lemma groupby_sum_In (rows : list R) (k : K) (v : Num) :
  In (k, v) (groupby_sum key val keqb kleb rows) <->
  In k (map key rows) /\ v = group_sum key val keqb rows k.
Proof.
  unfold groupby_sum. rewrite in_map_iff. split.
  - intros (k' & [= -> ->] & Hin). split; [|done]. by apply group_keys_In.
  - intros [Hin ->]. exists k. split; [done|]. by apply group_keys_In.
Qed.

Lemma groupby_sum_length (rows : list R) :
  length (groupby_sum key val keqb kleb rows) = length (unique keqb (map key rows)).
Proof.
  unfold groupby_sum, group_keys. by rewrite length_map, isort_length.
Qed.

End GroupByProps.

(* ===================================================================== *)
(** ** Timestamps: order *)
(* ===================================================================== *)

Ltac ts_bool :=
  unfold ts_leb, ts_ltb, ts_eqb in *; simpl in *;
  rewrite ?orb_true_iff, ?andb_true_iff, ?orb_false_iff, ?andb_false_iff,
    ?Z.ltb_lt, ?Z.eqb_eq, ?Z.ltb_ge, ?Z.eqb_neq in *.

Lemma ts_eqb_eq (a b : Timestamp) : ts_eqb a b = true <-> a = b.
Proof.
  destruct a as [y1 m1 d1 n1], b as [y2 m2 d2 n2]. split.
  - intros H. ts_bool. f_equal; lia.
  - intros [= -> -> -> ->]. ts_bool. lia.
Qed.

Lemma ts_leb_total (a b : Timestamp) : ts_leb a b = true \/ ts_leb b a = true.
Proof. destruct a, b. ts_bool. lia. Qed.

Lemma ts_leb_trans (a b c : Timestamp) :
  ts_leb a b = true -> ts_leb b c = true -> ts_leb a c = true.
Proof. destruct a, b, c. intros H1 H2. ts_bool. lia. Qed.

Lemma ts_leb_ltb (a b : Timestamp) :
  ts_leb a b = true -> a <> b -> ts_ltb a b = true.
Proof.
  intros Hle Hne. unfold ts_leb in Hle. apply orb_true_iff in Hle as [H | H]; [done|].
  by apply ts_eqb_eq in H.
Qed.

(* ===================================================================== *)
(** ** Monthly sums and the outer join: properties *)
(* ===================================================================== *)

Section MonthlySum.

Context {pd : Pandas}.
Context {R : Type} (period : R -> option Timestamp) (val : R -> Num).

Lemma month_rows_keys (rows : list R) (m : Timestamp) :
  In m (map fst (month_rows period val rows)) <-> has_month period rows m = true.
Proof.
  unfold month_rows, has_month, in_month.
  induction rows as [|r rows IH]; simpl; [done|].
  rewrite orb_true_iff, <- IH.
  destruct (period r) as [t|]; simpl.
  - by rewrite ts_eqb_eq.
  - split; [auto | by intros [? | ?]].
Qed.

Lemma month_rows_group (rows : list R) (m : Timestamp) :
  map snd (List.filter (fun p => ts_eqb (fst p) m) (month_rows period val rows))
  = map val (List.filter (in_month period m) rows).
Proof.
  unfold month_rows, in_month.
  induction rows as [|r rows IH]; simpl; [done|].
  destruct (period r) as [t|]; simpl; [|exact IH].
  destruct (ts_eqb (month_start t) m); simpl; [f_equal|]; exact IH.
Qed.

(** The monthly table has one row per month met, with that month's sum. *)
Lemma monthly_sum_In (rows : list R) (m : Timestamp) (v : Num) :
  In (m, v) (monthly_sum period val rows) <->
  has_month period rows m = true /\ v = month_total period val rows m.
Proof.
  unfold monthly_sum. rewrite groupby_sum_In by apply ts_eqb_eq.
  rewrite month_rows_keys. unfold group_sum, month_total.
  by rewrite month_rows_group.
Qed.

Lemma monthly_sum_keys (rows : list R) (m : Timestamp) :
  In m (map fst (monthly_sum period val rows)) <-> has_month period rows m = true.
Proof.
  unfold monthly_sum. rewrite groupby_sum_keys, group_keys_In by apply ts_eqb_eq.
  apply month_rows_keys.
Qed.

Lemma monthly_sum_NoDup (rows : list R) :
  List.NoDup (map fst (monthly_sum period val rows)).
Proof.
  unfold monthly_sum. rewrite groupby_sum_keys.
  apply group_keys_NoDup, ts_eqb_eq.
Qed.

(** A month's sum is a number or NaN, never a null. *)
Lemma month_total_not_null (rows : list R) (m : Timestamp) :
  month_total period val rows m <> Null.
Proof. apply sum_with_not_null. Qed.

End MonthlySum.

Section OuterJoin.

Implicit Types (l act fc : list (Timestamp * Num)) (k m : Timestamp).

Lemma lookup_month_None l k :
  lookup_month k l = None <-> ~ In k (map fst l).
Proof.
  unfold lookup_month. induction l as [|[k' v] l IH]; simpl; [tauto|].
  destruct (ts_eqb k' k) eqn:Hk; simpl.
  - apply ts_eqb_eq in Hk. split; [done | tauto].
  - rewrite IH. split; [|tauto]. intros Hn [-> | Hin]; [|done].
    assert (ts_eqb k k = true) by by apply ts_eqb_eq. congruence.
Qed.

Lemma lookup_month_Some l k v :
  List.NoDup (map fst l) -> lookup_month k l = Some v <-> In (k, v) l.
Proof.
  unfold lookup_month. induction l as [|[k' v'] l IH]; simpl; intros Hnd.
  - split; [done | tauto].
  - apply NoDup_cons_iff in Hnd as [Hk' Hnd].
    destruct (ts_eqb k' k) eqn:Hk; simpl.
    + apply ts_eqb_eq in Hk as ->. split.
      * intros [= ->]. by left.
      * intros [[= ->] | Hin]; [done|].
        exfalso. apply Hk'. apply in_map_iff. by exists (k, v).
    + rewrite IH by done. split; [tauto|]. intros [[= -> ->] | Hin]; [|done].
      assert (ts_eqb k k = true) by by apply ts_eqb_eq. congruence.
Qed.

(** The rows of the outer join: every month of either side, once, with
    each side's value or null. *)
Lemma merge_outer_In act fc m (a f : Num) :
  List.NoDup (map fst act) -> List.NoDup (map fst fc) ->
  In (m, a, f) (merge_outer act fc) <->
  (In m (map fst act) \/ In m (map fst fc)) /\
  a = default Null (lookup_month m act) /\ f = default Null (lookup_month m fc).
Proof.
  intros Ha Hf. unfold merge_outer.
  rewrite in_app_iff, omap_In, (in_map_iff _ act (m, a, f)). split.
  - intros [([k v] & Heq & Hin) | ([k v] & Hin & Heq)]; simpl in Heq.
    + injection Heq as <- <- <-.
      split; [left; apply in_map_iff; by exists (k, v)|].
      split; [|done].
      by rewrite (proj2 (lookup_month_Some act k v Ha) Hin).
    + destruct (lookup_month k act) eqn:Hl; [done|].
      injection Heq as <- <- <-.
      split; [right; apply in_map_iff; by exists (k, v)|].
      rewrite Hl. split; [done|].
      by rewrite (proj2 (lookup_month_Some fc k v Hf) Hin).
  - intros (Hin & -> & ->).
    destruct (lookup_month m act) as [v|] eqn:Hl.
    + left. exists (m, v). split; [done|]. by apply lookup_month_Some.
    + right. pose proof (proj1 (lookup_month_None _ _) Hl) as Hno.
      destruct Hin as [Hin | Hin]; [done|].
      apply in_map_iff in Hin as ([k v] & Heq & Hin). simpl in Heq. subst k.
      exists (m, v). split; [done|]. simpl. rewrite Hl.
      by rewrite (proj2 (lookup_month_Some fc m v Hf) Hin).
Qed.

Lemma merge_outer_NoDup act fc :
  List.NoDup (map fst act) -> List.NoDup (map fst fc) ->
  List.NoDup (map (fun row => fst (fst row)) (merge_outer act fc)).
Proof.
  intros Ha Hf. unfold merge_outer. rewrite map_app, map_map. simpl.
  apply List.NoDup_app; [done | |].
  - clear Ha. induction fc as [|[k v] fc IH]; simpl; [constructor|].
    apply NoDup_cons_iff in Hf as [Hk Hf].
    destruct (lookup_month k act); simpl; [by apply IH|].
    constructor; [|by apply IH].
    intros Hin. apply Hk. apply in_map_iff in Hin as ([[k' a] f] & Heq & Hin).
    simpl in Heq. subst k'.
    apply omap_In in Hin as ([k' v'] & Hin & Heq).
    simpl in Heq. destruct (lookup_month k' act); [done|].
    injection Heq as -> _ _.
    apply in_map_iff. by exists (k, v').
  - intros m Hm Hin. apply in_map_iff in Hin as ([[k a] f] & Heq & Hin).
    simpl in Heq. subst k.
    apply omap_In in Hin as ([k v] & _ & Heq).
    simpl in Heq. destruct (lookup_month k act) eqn:Hl; [done|].
    injection Heq as -> _ _.
    by apply lookup_month_None in Hl.
Qed.

End OuterJoin.

Section Reconciliation.

Context {pd : Pandas}.

Lemma lookup_month_monthly_sum {R} (period : R -> option Timestamp)
  (val : R -> Num) (rows : list R) (m : Timestamp) :
  default Null (lookup_month m (monthly_sum period val rows))
  = side_value period val rows m.
Proof.
  unfold side_value. destruct (has_month period rows m) eqn:Hm.
  - erewrite (proj2 (lookup_month_Some _ m _ (monthly_sum_NoDup period val rows)));
      [reflexivity|].
    by apply monthly_sum_In.
  - assert (lookup_month m (monthly_sum period val rows) = None) as ->; [|done].
    apply lookup_month_None. rewrite monthly_sum_keys. congruence.
Qed.

Lemma has_month_notna {R} (period : R -> option Timestamp) (rows : list R) m :
  has_month period rows m = true -> existsb notna (map period rows) = true.
Proof.
  unfold has_month, in_month. rewrite !existsb_exists.
  intros (r & Hin & Hr). exists (period r). split; [by apply in_map|].
  by destruct (period r).
Qed.

Lemma sorted_by_month_strict {B} (key : B -> Timestamp) (l : list B) :
  StronglySorted (fun a b => ts_leb (key a) (key b) = true) l ->
  List.NoDup (map key l) ->
  StronglySorted (fun a b => ts_ltb (key a) (key b) = true) l.
Proof.
  induction 1 as [|x l Hs IH Hx]; simpl; intros Hnd; constructor;
    apply NoDup_cons_iff in Hnd as [Hnx Hnd]; [by apply IH|].
  apply List.Forall_forall. intros y Hy.
  apply ts_leb_ltb; [by eapply List.Forall_forall in Hx|].
  intros Heq. apply Hnx. rewrite Heq. by apply in_map.
Qed.

Lemma sort_values_Period_sorted (l : list (Timestamp * Num * Num)) :
  List.NoDup (map (fun row => fst (fst row)) l) ->
  StronglySorted (fun a b => ts_ltb (fst (fst a)) (fst (fst b)) = true)
    (sort_values_Period l).
Proof.
  intros Hnd. apply (sorted_by_month_strict (fun row => fst (fst row))).
  - unfold sort_values_Period. apply isort_sorted.
    + intros a b. apply ts_leb_total.
    + intros a b c. apply ts_leb_trans.
  - eapply Permutation_NoDup; [|exact Hnd].
    apply Permutation_map. symmetry. apply isort_perm.
Qed.

(** The rows of the merged table. *)
Lemma af_In (facts : list FactRecord) (forecasts : list ForecastRecord)
  (m : Timestamp) (a f : Num) :
  In (m, a, f) (af facts forecasts) <->
  (has_month f_Period facts m = true \/ has_month fc_Period forecasts m = true) /\
  a = side_value f_Period f_Revenue facts m /\
  f = side_value fc_Period fc_Forecast forecasts m.
Proof.
  unfold af, act, fc, sort_values_Period.
  rewrite isort_In, merge_outer_In by apply monthly_sum_NoDup.
  by rewrite !monthly_sum_keys, !lookup_month_monthly_sum.
Qed.

End Reconciliation.

(** C6 (as amended): whenever some filtered forecast record has a period,
    the reconciliation is produced and it is the full outer join of the
    monthly actual sums and the monthly forecast sums on the month start:
    months strictly ascending, a row for every month of either side, each
    side holding its sum for the month (NaN when an amount of the month is
    NaN) or null when it has no such month; a month found in the forecast
    only gives (month, null, forecast sum). *)
Theorem actualVsForecast_full_outer_join `{Pandas} (facts : list FactRecord)
  (forecasts : list ForecastRecord) :
  ((exists r, In r forecasts /\ fc_Period r <> None) ->
   exists af,
     actualVsForecast facts forecasts = Some af /\
     StronglySorted (fun a b => ts_ltb (fst (fst a)) (fst (fst b)) = true) af /\
     forall m actual forecast,
       In (m, actual, forecast) af <->
       (has_month f_Period facts m = true \/
        has_month fc_Period forecasts m = true) /\
       actual = side_value f_Period f_Revenue facts m /\
       forecast = side_value fc_Period fc_Forecast forecasts m)
  /\
  (forall m,
     has_month fc_Period forecasts m = true ->
     has_month f_Period facts m = false ->
     month_total fc_Period fc_Forecast forecasts m <> Null /\
     exists af,
       actualVsForecast facts forecasts = Some af /\
       In (m, Null, month_total fc_Period fc_Forecast forecasts m) af).
Proof.
  assert (existsb notna (map fc_Period forecasts) = true ->
          exists af,
            actualVsForecast facts forecasts = Some af /\
            StronglySorted
              (fun a b => ts_ltb (fst (fst a)) (fst (fst b)) = true) af /\
            forall m actual forecast,
              In (m, actual, forecast) af <->
              (has_month f_Period facts m = true \/
               has_month fc_Period forecasts m = true) /\
              actual = side_value f_Period f_Revenue facts m /\
              forecast = side_value fc_Period fc_Forecast forecasts m) as Hjoin.
  { intros Hguard. unfold actualVsForecast. rewrite Hguard.
    eexists. split; [reflexivity|]. split.
    - unfold af, act, fc.
      apply sort_values_Period_sorted, merge_outer_NoDup; apply monthly_sum_NoDup.
    - intros m actual forecast. apply af_In. }
  split.
  - intros (r & Hin & Hr). apply Hjoin.
    apply existsb_exists. exists (fc_Period r). split; [by apply in_map|].
    by destruct (fc_Period r).
  - intros m Hfc Hact. split; [apply month_total_not_null|].
    destruct (Hjoin (has_month_notna _ _ _ Hfc)) as (af & Haf & _ & Hrows).
    exists af. split; [done|]. apply Hrows. split; [by right|].
    unfold side_value. by rewrite Hfc, Hact.
Qed.

Lemma actualVsForecast_full_outer_join_witness :
  exists af,
    @actualVsForecast pandas_ref facts_jan_mar forecasts_jan_feb = Some af /\
    StronglySorted (fun a b => ts_ltb (fst (fst a)) (fst (fst b)) = true) af /\
    forall m actual forecast,
      In (m, actual, forecast) af <->
      (has_month f_Period facts_jan_mar m = true \/
       has_month fc_Period forecasts_jan_feb m = true) /\
      actual = @side_value pandas_ref _ f_Period f_Revenue facts_jan_mar m /\
      forecast = @side_value pandas_ref _ fc_Period fc_Forecast forecasts_jan_feb m.
Proof.
  apply (proj1 (@actualVsForecast_full_outer_join pandas_ref facts_jan_mar
                  forecasts_jan_feb)).
  exists (mkForecast "Acme" (Some (mkTs 2025 2 7 0)) (Fin 5)).
  split; [left; reflexivity | discriminate].
Defined.

(** C6 (counterexample): with actuals in January and March and an empty
    filtered forecast, the outer join has a row for each of the two
    months, forecast null; the code produces no table. *)
Lemma actualVsForecast_without_forecast_period :
  @actualVsForecast_spec pandas_ref facts_jan_mar []
  = [(mkTs 2025 1 1 0, Fin 100, Null); (mkTs 2025 3 1 0, Fin 100, Null)] /\
  @actualVsForecast pandas_ref facts_jan_mar [] = None.
Proof. split; vm_compute; reflexivity. Qed.

(** The code produces no table from an empty forecast, whatever the
    arithmetic. *)
Lemma actualVsForecast_empty_forecast `{Pandas} (facts : list FactRecord) :
  actualVsForecast facts [] = None.
Proof. reflexivity. Qed.

(** The revenue trend of the specification's sample: revenues 100, 50 and
    70 on 2025-01-05, 2025-02-10 and 2025-02-20. *)
Example monthlyTrend_sample :
  @monthlyTrend pandas_ref facts_jan_feb
  = Some [(mkTs 2025 1 1 0, Fin 100); (mkTs 2025 2 1 0, Fin 120)].
Proof. vm_compute. reflexivity. Qed.

(** The reconciliation of the sample records. *)
Example actualVsForecast_sample :
  @actualVsForecast pandas_ref facts_jan_mar forecasts_jan_feb
  = Some [(mkTs 2025 1 1 0, Fin 100, Fin 90);
          (mkTs 2025 2 1 0, Null, Fin 5);
          (mkTs 2025 3 1 0, Fin 100, Null)].
Proof. vm_compute. reflexivity. Qed.

(** C10: the reconciliation is produced only if some filtered forecast
    record has a period: when every one of them has a null period nothing
    is computed, whatever the actuals hold; when one has a period a
    reconciliation is computed. *)
Theorem actualVsForecast_needs_forecast_period `{Pandas}
  (facts : list FactRecord) (forecasts : list ForecastRecord) :
  ((forall r, In r forecasts -> fc_Period r = None) ->
   actualVsForecast facts forecasts = None)
  /\
  ((exists r, In r forecasts /\ fc_Period r <> None) ->
   exists af, actualVsForecast facts forecasts = Some af).
Proof.
  unfold actualVsForecast. split.
  - intros Hall.
    destruct (existsb notna (map fc_Period forecasts)) eqn:He; [|done].
    apply existsb_exists in He as (p & Hin & Hp).
    apply in_map_iff in Hin as (r & <- & Hin).
    by rewrite (Hall r Hin) in Hp.
  - intros (r & Hin & Hr).
    assert (existsb notna (map fc_Period forecasts) = true) as ->; [|by eexists].
    apply existsb_exists. exists (fc_Period r). split; [by apply in_map|].
    by destruct (fc_Period r).
Qed.

Lemma actualVsForecast_needs_forecast_period_witness :
  has_month f_Period facts_jan_mar (mkTs 2025 1 1 0) = true /\
  @actualVsForecast pandas_ref facts_jan_mar forecasts_no_period = None.
Proof.
  split; [reflexivity|].
  apply (proj1 (@actualVsForecast_needs_forecast_period pandas_ref facts_jan_mar
                  forecasts_no_period)).
  intros r [<- | [<- | []]]; reflexivity.
Defined.

(* ===================================================================== *)
(** ** Client keys: order *)
(* ===================================================================== *)

Section StringOrder.

Lemma ascii_compare_lt_trans (a b c : ascii) :
  Ascii.compare a b = Lt -> Ascii.compare b c = Lt -> Ascii.compare a c = Lt.
Proof.
  unfold Ascii.compare. rewrite !N.compare_lt_iff. lia.
Qed.

Lemma string_compare_lt_trans (s1 s2 s3 : string) :
  String.compare s1 s2 = Lt -> String.compare s2 s3 = Lt ->
  String.compare s1 s3 = Lt.
Proof.
  revert s2 s3. induction s1 as [|a s1 IH]; intros [|b s2] [|c s3]; simpl;
    try done.
  destruct (Ascii.compare a b) eqn:Hab; try done;
    destruct (Ascii.compare b c) eqn:Hbc; try done; intros H1 H2.
  - apply Ascii.compare_eq_iff in Hab, Hbc. subst.
    assert (Ascii.compare c c = Eq) as -> by apply N.compare_refl.
    by eapply IH.
  - apply Ascii.compare_eq_iff in Hab. subst. by rewrite Hbc.
  - apply Ascii.compare_eq_iff in Hbc. subst. by rewrite Hab.
  - by rewrite (ascii_compare_lt_trans _ _ _ Hab Hbc).
Qed.

Lemma string_leb_trans (s1 s2 s3 : string) :
  String.leb s1 s2 = true -> String.leb s2 s3 = true -> String.leb s1 s3 = true.
Proof.
  unfold String.leb.
  destruct (String.compare s1 s2) eqn:H12; try done;
    destruct (String.compare s2 s3) eqn:H23; try done; intros _ _.
  - apply String.compare_eq_iff in H12. subst. by rewrite H23.
  - apply String.compare_eq_iff in H12. subst. by rewrite H23.
  - apply String.compare_eq_iff in H23. subst. by rewrite H12.
  - by rewrite (string_compare_lt_trans _ _ _ H12 H23).
Qed.

Lemma string_leb_ltb (s1 s2 : string) :
  String.leb s1 s2 = true -> s1 <> s2 -> String.ltb s1 s2 = true.
Proof.
  unfold String.leb, String.ltb.
  destruct (String.compare s1 s2) eqn:H12; try done.
  apply String.compare_eq_iff in H12. done.
Qed.

(** Strictly ascending keys: sorted keys without repetition. *)
Lemma sorted_keys_strict (l : list string) :
  StronglySorted (fun a b => String.leb a b = true) l -> List.NoDup l ->
  StronglySorted (fun a b => String.ltb a b = true) l.
Proof.
  induction 1 as [|x l Hs IH Hx]; intros Hnd; constructor;
    apply NoDup_cons_iff in Hnd as [Hnx Hnd]; [by apply IH|].
  apply List.Forall_forall. intros y Hy.
  apply string_leb_ltb; [by eapply List.Forall_forall in Hx|].
  by intros ->.
Qed.

End StringOrder.
Section SortedKeys.

Lemma string_ltb_asym (a b : string) :
  String.ltb a b = true -> String.ltb b a = true -> False.
Proof.
  unfold String.ltb. rewrite (String.compare_antisym a b).
  by destruct (String.compare b a).
Qed.

(** Two strictly ascending lists with the same members are one list. *)
Lemma sorted_same_members (l1 l2 : list string) :
  StronglySorted (fun a b => String.ltb a b = true) l1 ->
  StronglySorted (fun a b => String.ltb a b = true) l2 ->
  (forall x, In x l1 <-> In x l2) ->
  l1 = l2.
Proof.
  intros H1. revert l2. induction H1 as [|x t1 Hs1 IH Hx]; intros l2 H2 Hmem.
  - destruct l2 as [|y t2]; [done|]. exfalso. apply (Hmem y). by left.
  - destruct H2 as [|y t2 Hs2 Hy].
    { exfalso. apply (Hmem x). by left. }
    assert (x = y) as <-.
    { destruct (proj1 (Hmem x) (or_introl eq_refl)) as [Hxy | Hxt]; [done|].
      destruct (proj2 (Hmem y) (or_introl eq_refl)) as [Hyx | Hyt]; [done|].
      exfalso. eapply (string_ltb_asym x y).
      - by eapply List.Forall_forall in Hx.
      - by eapply List.Forall_forall in Hy. }
    f_equal. apply IH; [done|]. intros z. split; intros Hz.
    + destruct (proj1 (Hmem z) (or_intror Hz)) as [<- | Hin]; [|done].
      exfalso. eapply (string_ltb_asym x x);
        by eapply List.Forall_forall in Hx.
    + destruct (proj2 (Hmem z) (or_intror Hz)) as [<- | Hin]; [|done].
      exfalso. eapply (string_ltb_asym x x);
        by eapply List.Forall_forall in Hy.
Qed.

Lemma In_map_filter {R} (key : R -> string) (rows : list R) (k : string) :
  In k (map key rows) <-> List.filter (fun r => String.eqb (key r) k) rows <> [].
Proof.
  induction rows as [|r rows IH]; simpl; [tauto|].
  destruct (String.eqb (key r) k) eqn:Hk.
  - apply String.eqb_eq in Hk. split; [done | auto].
  - apply String.eqb_neq in Hk. rewrite <- IH. tauto.
Qed.

End SortedKeys.

(* ===================================================================== *)
(** ** Top clients: properties *)
(* ===================================================================== *)

Section TopClients.

Context {pd : Pandas}.

Lemma group_keys_ascend (facts : list FactRecord) :
  StronglySorted (fun a b => String.ltb a b = true)
    (group_keys f_Client String.eqb String.leb facts).
Proof.
  apply sorted_keys_strict.
  - apply isort_sorted; [apply String.leb_total | apply string_leb_trans].
  - apply group_keys_NoDup. exact String.eqb_eq.
Qed.

(** The grouped table lists the clients by strictly ascending key. *)
Lemma groupby_sum_keys_ascend (facts : list FactRecord) :
  StronglySorted (fun a b => String.ltb (fst a) (fst b) = true)
    (groupby_sum f_Client f_Revenue String.eqb String.leb facts).
Proof.
  pose proof (group_keys_ascend facts) as Hk.
  unfold groupby_sum.
  induction Hk as [|k ks Hs IH Hx]; simpl; constructor; [done|].
  apply List.Forall_forall. intros p Hp.
  apply in_map_iff in Hp as (k' & <- & Hk'). simpl.
  by eapply List.Forall_forall in Hx.
Qed.

(** The grouped table depends on the rows of each client only, not on the
    order in which the clients are met. *)
Lemma groupby_sum_same_client_rows (facts facts' : list FactRecord) :
  same_client_rows facts facts' ->
  groupby_sum f_Client f_Revenue String.eqb String.leb facts'
  = groupby_sum f_Client f_Revenue String.eqb String.leb facts.
Proof.
  intros Hsame. unfold groupby_sum.
  assert (group_keys f_Client String.eqb String.leb facts'
          = group_keys f_Client String.eqb String.leb facts) as ->.
  { apply sorted_same_members; try apply group_keys_ascend.
    intros c. rewrite !(group_keys_In _ _ _ String.eqb_eq).
    by rewrite !In_map_filter, Hsame. }
  apply map_ext. intros c. unfold group_sum. by rewrite Hsame.
Qed.

End TopClients.

(** C2 (as amended): [top_clients] has one row per client of the input,
    holding the client's summed revenue; the rows are in descending order
    of revenue and the table is cut to the first 15 rows, so a client left
    out has no larger revenue than any row kept; ties are not broken by
    the order of encounter: the result is the same for two inputs that
    hold the same rows for every client, in whatever order the clients
    are met, because the grouping lists the clients by ascending key
    before the sort. With A: 300, B: 300 and C: 100 the result is the
    same whether the input meets A or B first. *)
Theorem top_clients_ranked `{Pandas} :
  sort_values_permutes ->
  sort_values_descending ->
  (forall facts : list FactRecord,
     List.NoDup (map fst (top_clients facts)) /\
     (forall c r, In (c, r) (top_clients facts) ->
                  In c (map f_Client facts) /\ r = client_revenue facts c) /\
     StronglySorted revenue_not_below (top_clients facts) /\
     length (top_clients facts)
     = Nat.min 15 (length (unique String.eqb (map f_Client facts))) /\
     (forall c, In c (map f_Client facts) ->
        In (c, client_revenue facts c) (top_clients facts) \/
        (length (top_clients facts) = 15%nat /\
         forall p, In p (top_clients facts) ->
                   revenue_not_below p (c, client_revenue facts c)))) /\
  (forall facts facts' : list FactRecord,
     same_client_rows facts facts' -> top_clients facts' = top_clients facts) /\
  top_clients facts_B_first = top_clients facts_A_first.
Proof.
  intros Hperm Hdesc. split; [|split].
  - intros facts. unfold top_clients.
    set (G := groupby_sum f_Client f_Revenue String.eqb String.leb facts).
    set (S := sort_values_Revenue G).
    assert (StronglySorted revenue_not_below S) as Hsorted by apply Hdesc.
    assert (Permutation S G) as HSG by apply Hperm.
    assert (forall c r, In (c, r) S <->
              In c (map f_Client facts) /\ r = client_revenue facts c) as HinS.
    { intros c r.
      change (client_revenue facts c)
        with (group_sum f_Client f_Revenue String.eqb facts c).
      rewrite <- (groupby_sum_In f_Client f_Revenue String.eqb String.leb
                    String.eqb_eq facts c r).
      split; apply Permutation_in; [done | by symmetry]. }
    assert (length S = length (unique String.eqb (map f_Client facts))) as Hlen.
    { rewrite (Permutation_length HSG). apply groupby_sum_length. }
    split; [|split; [|split; [|split]]].
    + apply NoDup_map_firstn.
      eapply Permutation_NoDup.
      * apply Permutation_map. symmetry. exact HSG.
      * unfold G. rewrite groupby_sum_keys. apply group_keys_NoDup.
        exact String.eqb_eq.
    + intros c r Hin. by apply In_firstn, HinS in Hin.
    + by apply firstn_StronglySorted.
    + by rewrite length_firstn, Hlen.
    + intros c Hc.
      assert (In (c, client_revenue facts c) S) as Hin by by apply HinS.
      rewrite <- (firstn_skipn 15 S) in Hin, Hsorted.
      apply in_app_or in Hin as [Hin | Hin]; [by left | right]. split.
      * rewrite length_firstn.
        destruct (le_lt_dec (length S) 15) as [Hle | Hlt]; [|lia].
        by rewrite skipn_all2 in Hin.
      * intros p Hp. by eapply StronglySorted_app_cross.
  - intros facts facts' Hsame. unfold top_clients.
    by rewrite (groupby_sum_same_client_rows facts facts' Hsame).
  - reflexivity.
Qed.

(** C2 (on the stable sort of the reference instance). *)
Lemma top_clients_ranked_witness :
  StronglySorted revenue_not_below (@top_clients pandas_ref facts_B_first) /\
  @top_clients pandas_ref facts_B_first = @top_clients pandas_ref facts_A_first.
Proof.
  destruct (@top_clients_ranked pandas_ref pandas_ref_sort_permutes
              pandas_ref_sort_descending) as (Hranked & _ & Hsample).
  split; [apply (Hranked facts_B_first) | exact Hsample].
Defined.

(** C2 (counterexample): with B met first in the input, A and B tied at
    300, the code still lists A before B, where breaking the tie by the
    order of encounter would list B first. *)
Lemma top_clients_tie_ignores_encounter_order :
  @top_clients pandas_ref facts_B_first
  = [("A", Fin 300); ("B", Fin 300); ("C", Fin 100)] /\
  @topClients_spec pandas_ref facts_B_first
  = [("B", Fin 300); ("A", Fin 300); ("C", Fin 100)].
Proof. split; vm_compute; reflexivity. Qed.

(** Whatever [sort_values] does with equal revenues, the result cannot
    follow the order of encounter for both orders of the sample. *)
Lemma top_clients_not_by_encounter `{Pandas} :
  ~ (map fst (top_clients facts_A_first) = ["A"; "B"; "C"] /\
     map fst (top_clients facts_B_first) = ["B"; "A"; "C"]).
Proof.
  assert (top_clients facts_B_first = top_clients facts_A_first) as ->
    by reflexivity.
  intros [-> [=]].
Qed.


(* ===================================================================== *)
(** ** Password gate: properties *)
(* ===================================================================== *)

Section PasswordGate.

Implicit Types (secrets : gmap string string) (st : gmap string bool).

Lemma last_sign_in_snoc (inputs : list LoginInput) (inp : LoginInput) :
  last_sign_in (inputs ++ [inp])
  = if sign_in inp then Some inp else last_sign_in inputs.
Proof. unfold last_sign_in. by rewrite rev_unit. Qed.

Lemma session_after_snoc (file : option (gmap string string)) inputs inp st :
  session_after file (inputs ++ [inp]) st
  = match check_password file inp (session_after file inputs st) with
    | Ok r => snd r
    | Raised _ => session_after file inputs st
    end.
Proof. unfold session_after. by rewrite foldl_app. Qed.

(** With a password set, the entry ["_ok"] holds the verdict of the last
    press of "Sign in", and what it held before when there was none. *)
Lemma session_after_ok secrets pwd inputs st :
  secrets !! "APP_PASSWORD" = Some pwd -> pwd <> "" ->
  session_after (Some secrets) inputs st !! "_ok"
  = match last_sign_in inputs with
    | Some i => Some (String.eqb (entered i) pwd)
    | None => st !! "_ok"
    end.
Proof.
  intros Hpwd Hne. induction inputs as [|inp inputs IH] using rev_ind; [done|].
  rewrite session_after_snoc, last_sign_in_snoc. unfold check_password.
  rewrite Hpwd. simpl default.
  destruct (String.eqb pwd "") eqn:He; [by apply String.eqb_eq in He|].
  destruct (sign_in inp); simpl; [by rewrite lookup_insert_eq | exact IH].
Qed.

End PasswordGate.

(** X1: with a secrets file that holds no password, or an empty one, the
    gate lets every run through and leaves the session state alone,
    whatever is typed or pressed; without a secrets file the gate does not
    answer: reading the secrets raises. *)
Theorem check_password_open_without_password (secrets : gmap string string)
  (inp : LoginInput) (session_state : gmap string bool) :
  (secrets !! "APP_PASSWORD" = None \/ secrets !! "APP_PASSWORD" = Some "" ->
   check_password (Some secrets) inp session_state = Ok (true, session_state))
  /\
  check_password None inp session_state = Raised SecretsNotFound.
Proof.
  split; [|reflexivity].
  intros [H | H]; unfold check_password; by rewrite H.
Qed.

Lemma check_password_open_without_password_witness :
  check_password (Some {["OTHER" := "x"]})
    {| entered := "guess"; sign_in := true |} ∅ = Ok (true, ∅).
Proof.
  apply (proj1 (check_password_open_without_password {["OTHER" := "x"]}
                  {| entered := "guess"; sign_in := true |} ∅)).
  left. reflexivity.
Defined.

(** X2: with a password set, the answer of the gate after any sequence of
    runs is decided by the last press of "Sign in": access is given
    exactly when the text entered at that press is the password, so a
    later press with a wrong text takes access away again; when "Sign in"
    was never pressed the answer is what the session held before, and
    denied for a fresh session. *)
Theorem check_password_follows_last_sign_in (secrets : gmap string string)
  (pwd : string) (inputs : list LoginInput) (inp : LoginInput)
  (session_state : gmap string bool) :
  secrets !! "APP_PASSWORD" = Some pwd -> pwd <> "" ->
  exists session_state',
    check_password (Some secrets) inp
      (session_after (Some secrets) inputs session_state)
    = Ok (match last_sign_in (inputs ++ [inp]) with
          | Some i => String.eqb (entered i) pwd
          | None => default false (session_state !! "_ok")
          end, session_state').
Proof.
  intros Hpwd Hne.
  pose proof (session_after_ok secrets pwd (inputs ++ [inp]) session_state
                Hpwd Hne) as Hok.
  rewrite session_after_snoc in Hok.
  unfold check_password in *. rewrite Hpwd in *. simpl default in *.
  destruct (String.eqb pwd "") eqn:He; [by apply String.eqb_eq in He|].
  simpl in *. eexists. do 2 f_equal. rewrite Hok.
  by destruct (last_sign_in (inputs ++ [inp])).
Qed.

Lemma check_password_follows_last_sign_in_witness :
  exists session_state',
    check_password (Some {["APP_PASSWORD" := "s3cret"]})
      {| entered := ""; sign_in := false |}
      (session_after (Some {["APP_PASSWORD" := "s3cret"]})
         [{| entered := "s3cret"; sign_in := true |};
          {| entered := "oops"; sign_in := true |}] ∅)
    = Ok (match last_sign_in
                  ([{| entered := "s3cret"; sign_in := true |};
                    {| entered := "oops"; sign_in := true |}]
                   ++ [{| entered := ""; sign_in := false |}]) with
          | Some i => String.eqb (entered i) "s3cret"
          | None => default false ((∅ : gmap string bool) !! "_ok")
          end, session_state').
Proof.
  apply check_password_follows_last_sign_in; [reflexivity | discriminate].
Defined.

(* ===================================================================== *)
(** ** Workbooks: properties *)
(* ===================================================================== *)

Section Sheets.

Lemma find_first_split {A} (p : A -> bool) (l : list A) (x : A) :
  List.find p l = Some x ->
  exists pre post, l = pre ++ x :: post /\ p x = true /\
                   forall y, In y pre -> p y = false.
Proof.
  induction l as [|a l IH]; simpl; [done|].
  destruct (p a) eqn:Hp.
  - intros [= ->]. exists [], l. repeat split; [done|]. intros ? [].
  - intros Hf. destruct (IH Hf) as (pre & post & -> & Hx & Hpre).
    exists (a :: pre), post. repeat split; [done|].
    intros y [<- | Hy]; [done | by apply Hpre].
Qed.

Lemma head_In {A} (l : list A) (x : A) : head l = Some x -> In x l.
Proof. destruct l; intros [= ->]. by left. Qed.

Lemma last_In {A} (l : list A) (x : A) : last l = Some x -> In x l.
Proof.
  induction l as [|a l IH]; [done|]. destruct l as [|b l].
  - intros [= ->]. by left.
  - intros H. right. by apply IH.
Qed.

Lemma last_is_Some {A} (l : list A) : l <> [] -> exists x, last l = Some x.
Proof.
  induction l as [|a l IH]; [done|]. intros _. destruct l as [|b l].
  - by exists a.
  - destruct IH as [x Hx]; [done|]. by exists x.
Qed.

End Sheets.

(** X3: on a workbook that has sheets every one of the four sheet choices
    succeeds and names a sheet of that workbook, so reading it cannot miss;
    on a workbook without sheets every choice fails, because the
    positional fall-back is looked up first. *)
Theorem sheet_choice_is_a_sheet (names : list string) :
  (names <> [] ->
   forall choose, In choose [s_source; s_quarters; s_budget; s_forecast] ->
                  exists s, choose names = Some s /\ In s names)
  /\
  (names = [] ->
   forall choose, In choose [s_source; s_quarters; s_budget; s_forecast] ->
                  choose names = None).
Proof.
  assert (forall wanted fallback,
            (fallback = head \/ fallback = @last string) ->
            names <> [] ->
            exists s, pick_sheet wanted fallback names = Some s /\ In s names)
    as Hpick.
  { intros wanted fallback Hfb Hne. unfold pick_sheet.
    assert (exists d, fallback names = Some d /\ In d names) as (d & -> & Hd).
    { destruct Hfb as [-> | ->].
      - destruct names as [|n names']; [done|]. exists n. split; [done | by left].
      - destruct (last_is_Some names Hne) as [d Hd]. exists d.
        split; [done | by apply last_In]. }
    eexists. split; [reflexivity|].
    destruct (List.find _ names) as [s|] eqn:Hf; simpl; [|done].
    by apply find_some in Hf as [? _]. }
  split.
  - intros Hne choose Hin. simpl in Hin.
    destruct Hin as [<- | [<- | [<- | [<- | []]]]]; apply Hpick; auto.
  - intros -> choose Hin. simpl in Hin.
    destruct Hin as [<- | [<- | [<- | [<- | []]]]]; reflexivity.
Qed.

Lemma sheet_choice_is_a_sheet_witness :
  exists s, s_quarters ["Source"; "Notes"; "Quaters"] = Some s /\
            In s ["Source"; "Notes"; "Quaters"].
Proof.
  apply (proj1 (sheet_choice_is_a_sheet ["Source"; "Notes"; "Quaters"]));
    [discriminate | right; left; reflexivity].
Defined.

(** X4: a sheet choice takes the first sheet whose lower-cased name is one
    of the wanted names, and only when no sheet has such a name the sheet
    at the fall-back position (the first sheet for the source and budget
    sheets, the last for the quarters and forecast sheets). *)
Theorem pick_sheet_first_match_else_position (wanted : list string)
  (fallback : list string -> option string) (names : list string) (s : string) :
  pick_sheet wanted fallback names = Some s ->
  (exists pre post,
     names = pre ++ s :: post /\ In (Text.lower s) wanted /\
     forall n, In n pre -> ~ In (Text.lower n) wanted)
  \/
  ((forall n, In n names -> ~ In (Text.lower n) wanted) /\
   fallback names = Some s).
Proof.
  unfold pick_sheet. destruct (fallback names) as [d|] eqn:Hd; [|done].
  destruct (List.find _ names) as [x|] eqn:Hf; simpl; intros [= <-].
  - left. apply find_first_split in Hf as (pre & post & -> & Hx & Hpre).
    exists pre, post. split; [done|]. split; [by apply existsb_eqb_In|].
    intros n Hn Hw. apply existsb_eqb_In in Hw. by rewrite (Hpre n Hn) in Hw.
  - right. split; [|done]. intros n Hn Hw. apply existsb_eqb_In in Hw.
    by rewrite (find_none _ _ Hf n Hn) in Hw.
Qed.

Lemma pick_sheet_first_match_else_position_witness :
  (exists pre post,
     ["Summary"; "FORECAST DETAIL"; "Forecast Detail"] = pre ++ "FORECAST DETAIL" :: post /\
     In (Text.lower "FORECAST DETAIL") [Text.lower "forecast detail"] /\
     forall n, In n pre -> ~ In (Text.lower n) [Text.lower "forecast detail"])
  \/
  ((forall n, In n ["Summary"; "FORECAST DETAIL"; "Forecast Detail"] ->
              ~ In (Text.lower n) [Text.lower "forecast detail"]) /\
   last ["Summary"; "FORECAST DETAIL"; "Forecast Detail"] = Some "FORECAST DETAIL").
Proof.
  apply (pick_sheet_first_match_else_position [Text.lower "forecast detail"] last
           ["Summary"; "FORECAST DETAIL"; "Forecast Detail"] "FORECAST DETAIL").
  reflexivity.
Defined.

Section ColumnResolverMore.

Lemma find_col_loop_Some (cols : gmap string string) (candidates : list string)
  (h : string) :
  find_col_loop cols candidates = Some h ->
  exists cand, In cand candidates /\ cols !! Text.lower cand = Some h.
Proof.
  induction candidates as [|cand rest IH]; simpl; [done|].
  destruct (cols !! Text.lower cand) as [c|] eqn:Hl.
  - intros [= ->]. exists cand. split; [by left | done].
  - intros Hf. destruct (IH Hf) as (c & Hin & Hc). exists c. split; [by right | done].
Qed.

Lemma NoDup_map_eq {A B} (f : A -> B) (l : list A) (a b : A) :
  List.NoDup (map f l) -> In a l -> In b l -> f a = f b -> a = b.
Proof.
  induction l as [|x l IH]; simpl; [done|].
  intros Hnd Ha Hb Hf. apply NoDup_cons_iff in Hnd as [Hx Hnd].
  destruct Ha as [-> | Ha], Hb as [-> | Hb]; try done.
  - exfalso. apply Hx. rewrite Hf. by apply in_map.
  - exfalso. apply Hx. rewrite <- Hf. by apply in_map.
  - by apply IH.
Qed.

Lemma filter_none {A} (f : A -> bool) (l : list A) :
  (forall x, In x l -> f x = false) -> List.filter f l = [].
Proof.
  induction l as [|a l IH]; simpl; [done|]. intros Hall.
  rewrite (Hall a) by by left. apply IH. intros x Hx. apply Hall. by right.
Qed.

(** What [df[name]] gives, by the number of columns that [name] heads. *)
Lemma df_getitem_Ok (df : DataFrame) (h : string) (series : list Cell) :
  df_getitem df h = Ok series -> In (h, series) (df_cols df).
Proof.
  unfold df_getitem.
  destruct (List.filter _ (df_cols df)) as [|[h' cells] [|? ?]] eqn:Hf; try done.
  intros [= <-].
  assert (In (h', cells) (List.filter (fun p => String.eqb (fst p) h) (df_cols df)))
    as Hin by (rewrite Hf; by left).
  apply filter_In in Hin as [Hin Heq]. simpl in Heq.
  by apply String.eqb_eq in Heq as ->.
Qed.

Lemma df_getitem_KeyError (df : DataFrame) (h : string) :
  In h (df_columns df) -> df_getitem df h <> Raised KeyError.
Proof.
  unfold df_getitem, df_columns. intros Hin.
  apply in_map_iff in Hin as ([h' cells] & Hh & Hin). simpl in Hh. subst h'.
  destruct (List.filter _ (df_cols df)) as [|p [|? ?]] eqn:Hf; try done.
  assert (In (h, cells) (List.filter (fun p => String.eqb (fst p) h) (df_cols df)))
    as Hc.
  { apply filter_In. split; [done|]. apply String.eqb_refl. }
  by rewrite Hf in Hc.
Qed.

Lemma df_getitem_unique (df : DataFrame) (h : string) (cells : list Cell) :
  List.NoDup (df_columns df) -> In (h, cells) (df_cols df) ->
  df_getitem df h = Ok cells.
Proof.
  unfold df_getitem, df_columns.
  induction (df_cols df) as [|[h' c'] l IH]; simpl; [done|].
  intros Hnd Hin. apply NoDup_cons_iff in Hnd as [Hh' Hnd].
  destruct Hin as [[= -> ->] | Hin].
  - rewrite String.eqb_refl.
    rewrite filter_none; [done|].
    intros [h2 c2] H2. simpl. apply String.eqb_neq. intros ->.
    apply Hh'. apply in_map_iff. by exists (h, c2).
  - destruct (String.eqb h' h) eqn:Heq.
    + apply String.eqb_eq in Heq as ->. exfalso. apply Hh'.
      apply in_map_iff. by exists (h, cells).
    + by apply IH.
Qed.

End ColumnResolverMore.

(** X6: a header that [find_col] returns is a header of the table, equal
    up to case to one of the candidates: the resolver never names a column
    the sheet does not have, so reading the column never fails with a
    [KeyError]; what is read is a column under that header, and the read
    succeeds when no header of the sheet is repeated. *)
Theorem find_col_names_a_column (df : DataFrame) (candidates : list string)
  (h : string) :
  find_col (df_columns df) candidates = Some h ->
  In h (df_columns df) /\
  (exists cand, In cand candidates /\ Text.lower h = Text.lower cand) /\
  df_getitem df h <> Raised KeyError /\
  (forall series, df_getitem df h = Ok series -> In (h, series) (df_cols df)) /\
  (List.NoDup (df_columns df) -> exists series, df_getitem df h = Ok series).
Proof.
  unfold find_col. intros Hf.
  apply find_col_loop_Some in Hf as (cand & Hcand & Hl).
  apply cols_dict_lookup_Some in Hl as (hpre & hpost & Hcols & Hk & _).
  assert (In h (df_columns df)) as Hin.
  { rewrite Hcols. apply in_or_app. right. by left. }
  split; [done|]. split; [by exists cand|].
  split; [by apply df_getitem_KeyError|].
  split; [intros series; apply df_getitem_Ok|].
  intros Hnd. unfold df_columns in Hin.
  apply in_map_iff in Hin as ([h' cells] & Hh & Hin). simpl in Hh. subst h'.
  exists cells. by apply df_getitem_unique.
Qed.

Lemma find_col_names_a_column_witness :
  In "Amount" (df_columns sheet1) /\
  (exists cand, In cand ["Amount"; "Value"; "Revenue"] /\
                Text.lower "Amount" = Text.lower cand) /\
  df_getitem sheet1 "Amount" <> Raised KeyError /\
  (forall series, df_getitem sheet1 "Amount" = Ok series ->
                  In ("Amount", series) (df_cols sheet1)) /\
  (List.NoDup (df_columns sheet1) ->
   exists series, df_getitem sheet1 "Amount" = Ok series).
Proof.
  apply (find_col_names_a_column sheet1 ["Amount"; "Value"; "Revenue"] "Amount").
  reflexivity.
Defined.

(** X7: on a table whose headers stay distinct when lower-cased, the
    resolver returns the one header that equals, up to case, the first
    candidate that matches any header. *)
Theorem find_col_unique_header (columns pre post : list string)
  (cand h : string) :
  List.NoDup (map Text.lower columns) ->
  (forall c' h', In c' pre -> In h' columns -> Text.lower h' <> Text.lower c') ->
  In h columns ->
  Text.lower h = Text.lower cand ->
  find_col columns (pre ++ cand :: post) = Some h.
Proof.
  intros Hnd Hpre Hin Hk. unfold find_col.
  induction pre as [|c pre IH]; simpl.
  - destruct (cols_dict columns !! Text.lower cand) as [h'|] eqn:Hl.
    + apply cols_dict_lookup_Some in Hl as (hpre & hpost & Hcols & Hk' & _).
      f_equal. apply (NoDup_map_eq Text.lower columns); try done.
      * rewrite Hcols. apply in_or_app. right. by left.
      * congruence.
    + pose proof (proj1 (cols_dict_lookup_None _ _) Hl h Hin). done.
  - assert (cols_dict columns !! Text.lower c = None) as ->.
    { apply cols_dict_lookup_None. intros h' Hh'. apply Hpre; [by left | done]. }
    apply IH. intros c' h' Hc'. apply Hpre. by right.
Qed.

Lemma find_col_unique_header_witness :
  find_col ["client name"; "PERIOD"; "Revenue"]
           (["Fin Period"] ++ "Period" :: ["Month"; "Date"]) = Some "PERIOD".
Proof.
  apply find_col_unique_header.
  - vm_compute. repeat constructor; simpl; intros H;
      repeat (destruct H as [H | H]; [discriminate H|]); exact H.
  - intros c' h' [<- | []] [<- | [<- | [<- | []]]]; discriminate.
  - right. left. reflexivity.
  - reflexivity.
Defined.
(* ===================================================================== *)
(** ** Date normaliser: further properties *)
(* ===================================================================== *)

Section DateNormalizerMore.

Lemma mask_assign_length {A} (mask : list bool) (vals out : list (option A)) :
  length (mask_assign mask vals out) = length out.
Proof.
  revert vals out. induction mask as [|b mask IH]; intros vals out; [done|].
  destruct out as [|o out]; [done|]. simpl.
  destruct b; [destruct vals|]; simpl; by rewrite IH.
Qed.

Lemma mask_assign_all_notna {A} (src out : list (option A)) :
  Forall (fun o => notna o = true) src -> length out = length src ->
  mask_assign (map notna src) (boolean_index (map notna src) src) out = src.
Proof.
  revert out. induction src as [|x src IH]; intros out Hs Hlen.
  - by destruct out.
  - destruct out as [|o out]; [done|]. simpl in *.
    apply Forall_cons in Hs as [Hx Hs]. rewrite Hx. simpl. f_equal.
    apply IH; [done | lia].
Qed.

Lemma ns_coerce_in_bounds (o : option Timestamp) (t : Timestamp) :
  ns_coerce o = Some t -> in_ns_bounds t = true.
Proof.
  destruct o as [u|]; simpl; [|done].
  destruct (in_ns_bounds u) eqn:Hb; [|done]. by intros [= <-].
Qed.

Lemma to_datetime_strict_sound (s : string) (t : Timestamp) :
  Strptime.to_datetime_strict s = Some t ->
  valid_date t = true /\ in_ns_bounds t = true.
Proof.
  unfold Strptime.to_datetime_strict.
  destruct (Strptime.parse_fields s) as [[[y m] d]|]; [|done].
  destruct (valid_date (mkTs y m d 0)) eqn:Hv; [|done].
  intros Hc. pose proof (ns_coerce_in_bounds _ _ Hc) as Hb.
  simpl in Hc. destruct (in_ns_bounds (mkTs y m d 0)); [|done].
  injection Hc as <-. done.
Qed.

End DateNormalizerMore.

(** X8: the normaliser answers position by position: its result has one
    entry for every cell of the column, whatever the lenient parser
    returns. *)
Theorem normalize_period_length `{Pandas} (series : list Cell) :
  length (normalize_period series) = length series.
Proof.
  unfold normalize_period.
  destruct (existsb negb _); by rewrite !mask_assign_length, repeat_length.
Qed.

(** X10: when the strict tier reads every cell, the lenient parser is not
    consulted: the result is the strict reading of each cell, the same for
    every lenient parser. *)
Theorem normalize_period_all_strict `{Pandas} (series : list Cell) :
  (forall c, In c series ->
             Strptime.to_datetime_strict (Text.strip (astype_str series c))
             <> None) ->
  normalize_period series
  = map (fun c => Strptime.to_datetime_strict (Text.strip (astype_str series c)))
        series.
Proof.
  intros Hall. unfold normalize_period.
  set (parsed := map (fun c => Strptime.to_datetime_strict
                                 (Text.strip (astype_str series c))) series).
  assert (map Strptime.to_datetime_strict
            (map (fun c => Text.strip (astype_str series c)) series) = parsed) as ->
    by apply map_map.
  assert (Forall (fun o => notna o = true) parsed) as Hnotna.
  { apply List.Forall_forall. intros o Ho.
    apply in_map_iff in Ho as (c & <- & Hc). specialize (Hall c Hc).
    by destruct (Strptime.to_datetime_strict _). }
  assert (existsb negb (map notna parsed) = false) as ->.
  { apply not_true_is_false. intros He.
    apply existsb_exists in He as (b & Hb & Hneg).
    apply in_map_iff in Hb as (o & <- & Ho).
    eapply List.Forall_forall in Hnotna; [|exact Ho]. by rewrite Hnotna in Hneg. }
  apply mask_assign_all_notna; [done|].
  unfold parsed. by rewrite repeat_length, length_map.
Qed.

(** X10 (the second cell ends with an ideographic space, U+3000). *)
Lemma normalize_period_all_strict_witness :
  let series :=
    [CText "2025-01-05";
     CText (String.append " 2025-2-9"
              (String (Ascii.ascii_of_nat 227)
                 (String (Ascii.ascii_of_nat 128)
                    (String (Ascii.ascii_of_nat 128) ""))))] in
  @normalize_period pandas_ref series
  = [Some (mkTs 2025 1 5 0); Some (mkTs 2025 2 9 0)].
Proof.
  intros series.
  rewrite (@normalize_period_all_strict pandas_ref series); [reflexivity|].
  intros c [<- | [<- | []]]; discriminate.
Defined.

Section StrictRoundTrip.

Import Strptime.

Lemma digit_val_inv (c : ascii) (k : Z) :
  digit_val c = Some k -> (0 <= k <= 9)%Z /\ digit_char k = c.
Proof.
  unfold digit_val, digit_char.
  destruct ((48 <=? nat_of_ascii c)%nat && (nat_of_ascii c <=? 57)%nat) eqn:Hr;
    [|done].
  apply andb_true_iff in Hr as [H1 H2].
  apply Nat.leb_le in H1, H2. intros [= <-]. split; [lia|].
  rewrite Nat2Z.id.
  replace (48 + (nat_of_ascii c - 48))%nat with (nat_of_ascii c) by lia.
  apply ascii_nat_embedding.
Qed.

Lemma pad2_digits (a b : ascii) (x y : Z) (rest : string) :
  digit_val a = Some x -> digit_val b = Some y ->
  pad2 (10 * x + y) rest = String a (String b rest).
Proof.
  intros Ha Hb. apply digit_val_inv in Ha as [Hx <-], Hb as [Hy <-].
  unfold pad2. do 2 f_equal; [f_equal|f_equal; f_equal];
    Z.to_euclidean_division_equations; lia.
Qed.

Lemma pad4_digits (a b c d : ascii) (x3 x2 x1 x0 : Z) (rest : string) :
  digit_val a = Some x3 -> digit_val b = Some x2 ->
  digit_val c = Some x1 -> digit_val d = Some x0 ->
  pad4 (1000 * x3 + 100 * x2 + 10 * x1 + x0) rest
  = String a (String b (String c (String d rest))).
Proof.
  intros Ha Hb Hc Hd.
  apply digit_val_inv in Ha as [H3 <-], Hb as [H2 <-].
  unfold pad4.
  replace ((1000 * x3 + 100 * x2 + 10 * x1 + x0) mod 100)%Z
    with (10 * x1 + x0)%Z.
  2:{ apply digit_val_inv in Hc as [H1 _], Hd as [H0 _].
      Z.to_euclidean_division_equations; lia. }
  rewrite (pad2_digits c d x1 x0) by done.
  apply digit_val_inv in Hc as [H1 _], Hd as [H0 _].
  do 2 f_equal; [f_equal|f_equal; f_equal];
    Z.to_euclidean_division_equations; lia.
Qed.

Lemma parse_fields_ten_chars (s : string) (y m d : Z) :
  String.length s = 10%nat ->
  parse_fields s = Some (y, m, d) ->
  s = iso_format (mkTs y m d 0).
Proof.
  intros Hlen Hs.
  do 10 (destruct s as [|? s]; [discriminate Hlen|]).
  destruct s; [|discriminate Hlen]. clear Hlen.
  unfold parse_fields, parse_year, parse_1or2, expect_dash in Hs.
  repeat match type of Hs with
         | context [digit_val ?c] =>
             let E := fresh "E" in
             destruct (digit_val c) eqn:E; try discriminate Hs
         | context [Ascii.eqb ?c ?d] =>
             let E := fresh "E" in
             destruct (Ascii.eqb c d) eqn:E; try discriminate Hs
         end.
  repeat match goal with
         | E : Ascii.eqb _ _ = true |- _ => apply Ascii.eqb_eq in E; subst
         end.
  injection Hs as <- <- <-. unfold iso_format. simpl.
  erewrite pad4_digits by eassumption. do 5 f_equal.
  erewrite pad2_digits by eassumption. do 3 f_equal.
  by erewrite pad2_digits by eassumption.
Qed.

End StrictRoundTrip.




(* ===================================================================== *)
(** ** Builders and filter: further properties *)
(* ===================================================================== *)

Section BuildersMore.

Lemma filter_rows_filter {R} (client : R -> string)
  (period : R -> option Timestamp) (rows : list R) sel_clients sel_date :
  filter_rows client period rows sel_clients sel_date
  = List.filter (passes_filter client period sel_clients sel_date) rows.
Proof. unfold filter_rows. rewrite row_mask_pointwise. apply boolean_index_map. Qed.

Lemma filter_rows_In {R} (client : R -> string)
  (period : R -> option Timestamp) (rows : list R) sel_clients sel_date r :
  In r (filter_rows client period rows sel_clients sel_date) ->
  In r rows /\ passes_filter client period sel_clients sel_date r = true.
Proof. rewrite filter_rows_filter. apply filter_In. Qed.

Lemma forecast_rows_In n client period amount row :
  In row (forecast_rows n client period amount) ->
  exists i, (i < n)%nat /\ fc_Period row = nth i period None.
Proof.
  unfold forecast_rows. intros Hin. apply in_map_iff in Hin as (i & <- & Hi).
  apply in_seq in Hi. exists i. split; [lia | done].
Qed.

End BuildersMore.

(** X12: when the sheet has no cost column, every row of the fact table
    has a null cost and a null gross profit while its revenue is
    untouched, and for every selection the cost and gross-profit sums are
    0: the cards show R0 for both rather than "No data". *)
Theorem fact_without_cost_column `{Pandas} (df_source : DataFrame)
  (rows : list FactRecord) :
  find_col (df_columns df_source) ["Cost"; "Costs"; "Direct Cost"] = None ->
  fact df_source = Ok rows ->
  (forall row, In row rows -> f_Cost row = Null /\ f_GP row = Null)
  /\
  (forall sel_clients sel_date,
     Kpi.cost (fact_f rows sel_clients sel_date) = Fin 0 /\
     Kpi.gp (fact_f rows sel_clients sel_date) = Fin 0).
Proof.
  intros Hc Hf.
  assert (forall row, In row rows -> f_Cost row = Null /\ f_GP row = Null)
    as Hrows.
  { intros row Hin.
    apply fact_Ok in Hf as (period & revenue & cost & client & _ & _ & Hcost & _ & ->).
    unfold fact_Cost in Hcost. rewrite Hc in Hcost.
    apply number_column_None in Hcost as ->.
    apply fact_rows_In in Hin as (i & Hi & _ & _ & _ & -> & ->).
    rewrite nth_series_sub, nth_repeat_lt by lia. split; [done|].
    by destruct (nth i revenue Null). }
  split; [exact Hrows|].
  intros sel_clients sel_date. unfold Kpi.cost, Kpi.gp, series_sum.
  split; apply sum_with_all_null; intros x Hx;
    apply in_map_iff in Hx as (row & <- & Hrow);
    apply filter_rows_In in Hrow as [Hrow _]; by apply Hrows.
Qed.

Lemma fact_without_cost_column_witness :
  exists rows,
    @fact pandas_ref sheet_no_cost = Ok rows /\
    @Kpi.cost pandas_ref
      (fact_f rows [] (mkTs 2025 1 1 0, mkTs 2025 12 31 0)) = Fin 0 /\
    @Kpi.gp pandas_ref
      (fact_f rows [] (mkTs 2025 1 1 0, mkTs 2025 12 31 0)) = Fin 0.
Proof.
  destruct (@fact pandas_ref sheet_no_cost) as [rows|e] eqn:Hf; [|discriminate Hf].
  exists rows. split; [reflexivity|].
  apply (proj2 (@fact_without_cost_column pandas_ref sheet_no_cost rows
                  eq_refl Hf)).
Defined.

(** X13: when the sheet has no period column, no row of the fact table
    has a period, so no selection of clients and dates keeps any row: the
    filtered table is empty and no revenue trend is drawn. *)
Theorem fact_without_period_column `{Pandas} (df_source : DataFrame)
  (rows : list FactRecord) (sel_clients : list string)
  (sel_date : Timestamp * Timestamp) :
  find_col (df_columns df_source) ["Fin Period"; "Period"; "Month"; "Date"] = None ->
  fact df_source = Ok rows ->
  fact_f rows sel_clients sel_date = [] /\
  monthlyTrend (fact_f rows sel_clients sel_date) = None.
Proof.
  intros Hc Hf.
  assert (fact_f rows sel_clients sel_date = []) as ->; [|done].
  unfold fact_f. rewrite filter_rows_filter. apply filter_none.
  intros row Hin.
  apply fact_Ok in Hf as (period & revenue & cost & client & Hp & _ & _ & _ & ->).
  unfold fact_Period in Hp. rewrite Hc in Hp.
  apply period_column_None in Hp as ->.
  apply fact_rows_In in Hin as (i & Hi & _ & Hp & _).
  rewrite nth_repeat_lt in Hp by lia.
  unfold passes_filter. rewrite Hp. apply andb_false_r.
Qed.

Lemma fact_without_period_column_witness :
  exists rows,
    @fact pandas_ref sheet_no_period = Ok rows /\
    fact_f rows ["Acme"] (mkTs 2024 1 1 0, mkTs 2025 12 31 0) = [] /\
    @monthlyTrend pandas_ref
      (fact_f rows ["Acme"] (mkTs 2024 1 1 0, mkTs 2025 12 31 0)) = None.
Proof.
  destruct (@fact pandas_ref sheet_no_period) as [rows|e] eqn:Hf;
    [|discriminate Hf].
  exists rows. split; [reflexivity|].
  apply (@fact_without_period_column pandas_ref sheet_no_period rows);
    [reflexivity | exact Hf].
Defined.

(** X14: when the forecast sheet has no period column, the filtered
    forecast is empty for every selection and the actual-versus-forecast
    table is never produced, whatever the actuals are. *)
Theorem forecast_without_period_column `{Pandas} (df_forecast : DataFrame)
  (rows : list ForecastRecord) (facts : list FactRecord)
  (sel_clients : list string) (sel_date : Timestamp * Timestamp) :
  find_col (df_columns df_forecast) ["Period"; "Month"; "Fin Period"; "Date"] = None ->
  forecast df_forecast = Ok rows ->
  forecast_f rows sel_clients sel_date = [] /\
  actualVsForecast facts (forecast_f rows sel_clients sel_date) = None.
Proof.
  intros Hc Hf.
  assert (forecast_f rows sel_clients sel_date = []) as ->; [|done].
  unfold forecast_f. rewrite filter_rows_filter. apply filter_none.
  intros row Hin.
  apply forecast_Ok in Hf as (period & amount & client & Hp & _ & _ & ->).
  unfold forecast_Period in Hp. rewrite Hc in Hp.
  apply period_column_None in Hp as ->.
  apply forecast_rows_In in Hin as (i & Hi & Hp).
  rewrite nth_repeat_lt in Hp by lia.
  unfold passes_filter. rewrite Hp. apply andb_false_r.
Qed.

Lemma forecast_without_period_column_witness :
  exists rows,
    @forecast pandas_ref sheet_no_period = Ok rows /\
    forecast_f rows [] (mkTs 2024 1 1 0, mkTs 2025 12 31 0) = [] /\
    @actualVsForecast pandas_ref facts_jan_mar
      (forecast_f rows [] (mkTs 2024 1 1 0, mkTs 2025 12 31 0)) = None.
Proof.
  destruct (@forecast pandas_ref sheet_no_period) as [rows|e] eqn:Hf;
    [|discriminate Hf].
  exists rows. split; [reflexivity|].
  apply (@forecast_without_period_column pandas_ref sheet_no_period rows);
    [reflexivity | exact Hf].
Defined.

Section FilterMore.

Context {R : Type} (client : R -> string) (period : R -> option Timestamp).

Lemma filter_twice {A} (f : A -> bool) (l : list A) :
  List.filter f (List.filter f l) = List.filter f l.
Proof.
  induction l as [|a l IH]; simpl; [done|].
  destruct (f a) eqn:Hf; simpl; [by rewrite Hf, IH | done].
Qed.

Lemma passes_filter_period sel_clients sel_date (r : R) :
  passes_filter client period sel_clients sel_date r = true ->
  notna (period r) = true.
Proof.
  unfold passes_filter. intros H. apply andb_true_iff in H as [_ H].
  by destruct (period r).
Qed.

End FilterMore.

(** X15: filtering is idempotent: applying the same selection of clients
    and dates to an already filtered table changes nothing. *)
Theorem filter_rows_idempotent {R : Type} (client : R -> string)
  (period : R -> option Timestamp) (rows : list R) (sel_clients : list string)
  (sel_date : Timestamp * Timestamp) :
  filter_rows client period
    (filter_rows client period rows sel_clients sel_date) sel_clients sel_date
  = filter_rows client period rows sel_clients sel_date.
Proof. rewrite !filter_rows_filter. apply filter_twice. Qed.

(** X16: every row that passes the filter has a period, so on filtered
    tables the two "any period" guards only ask whether a row is left: the
    revenue trend is drawn exactly when the filtered facts are not empty,
    and the actual-versus-forecast table is produced exactly when the
    filtered forecast is not empty. *)
Theorem guards_on_filtered_tables `{Pandas} (fact : list FactRecord)
  (forecast : list ForecastRecord) (sel_clients : list string)
  (sel_date : Timestamp * Timestamp) :
  (monthlyTrend (fact_f fact sel_clients sel_date) = None <->
   fact_f fact sel_clients sel_date = [])
  /\
  (actualVsForecast (fact_f fact sel_clients sel_date)
     (forecast_f forecast sel_clients sel_date) = None <->
   forecast_f forecast sel_clients sel_date = []).
Proof.
  assert (forall {R} (client : R -> string) (period : R -> option Timestamp)
                 (rows : list R),
            existsb notna
              (map period (filter_rows client period rows sel_clients sel_date))
            = false <->
            filter_rows client period rows sel_clients sel_date = []) as Hguard.
  { intros R client period rows.
    destruct (filter_rows client period rows sel_clients sel_date)
      as [|r rest] eqn:Hf; [done|].
    split; [|done]. simpl.
    assert (In r (filter_rows client period rows sel_clients sel_date)) as Hin
      by (rewrite Hf; by left).
    apply filter_rows_In in Hin as [_ Hp].
    by rewrite (passes_filter_period _ _ _ _ _ Hp). }
  split.
  - unfold monthlyTrend, fact_f. rewrite <- Hguard.
    by destruct (existsb notna _).
  - unfold actualVsForecast, forecast_f. rewrite <- Hguard.
    by destruct (existsb notna _).
Qed.

(** X17: selecting every client that occurs is the same as selecting
    none: when the selection contains the client of every row, the filter
    keeps what the empty selection keeps. *)
Theorem filter_rows_all_clients_selected {R : Type} (client : R -> string)
  (period : R -> option Timestamp) (rows : list R) (sel_clients : list string)
  (sel_date : Timestamp * Timestamp) :
  (forall r, In r rows -> In (client r) sel_clients) ->
  filter_rows client period rows sel_clients sel_date
  = filter_rows client period rows [] sel_date.
Proof.
  intros Hall. rewrite !filter_rows_filter. apply filter_ext_in.
  intros r Hr. unfold passes_filter. f_equal.
  destruct sel_clients as [|c sel]; [done|].
  apply existsb_eqb_In. by apply Hall.
Qed.

Lemma filter_rows_all_clients_selected_witness :
  filter_rows f_Client f_Period facts_jan_mar ["Bolt"; "Acme"; "Zeta"]
    (mkTs 2025 1 1 0, mkTs 2025 1 31 0)
  = filter_rows f_Client f_Period facts_jan_mar []
      (mkTs 2025 1 1 0, mkTs 2025 1 31 0).
Proof.
  apply filter_rows_all_clients_selected.
  intros r [<- | [<- | [<- | []]]]; simpl; auto.
Defined.

(* ===================================================================== *)
(** ** Filter widgets: properties *)
(* ===================================================================== *)

Section Widgets.

Lemma ts_leb_refl (a : Timestamp) : ts_leb a a = true.
Proof.
  unfold ts_leb. assert (ts_eqb a a = true) as -> by by apply ts_eqb_eq.
  apply orb_true_r.
Qed.

Lemma series_fold_None (f : Timestamp -> Timestamp -> Timestamp)
  (l : list (option Timestamp)) :
  series_fold f l = None -> forall t, ~ In (Some t) l.
Proof.
  induction l as [|[u|] l IH]; simpl; [intros _ t [] | |].
  - by destruct (series_fold f l).
  - intros H t [? | Ht]; [done | by eapply IH].
Qed.

Lemma series_min_spec (l : list (option Timestamp)) (a : Timestamp) :
  series_min l = Some a ->
  In (Some a) l /\ forall t, In (Some t) l -> ts_leb a t = true.
Proof.
  unfold series_min. revert a.
  induction l as [|o l IH]; intros a; simpl; [done|].
  destruct o as [t|]; [|intros H; destruct (IH a H) as [Hin Hle]; split;
                        [by right | by intros u [? | Hu]; [|apply Hle]]].
  destruct (series_fold ts_min2 l) as [u|] eqn:Hl.
  - destruct (IH u eq_refl) as [Hin Hle]. unfold ts_min2.
    destruct (ts_leb t u) eqn:Htu; intros [= <-].
    + split; [by left|]. intros v [[= <-] | Hv]; [apply ts_leb_refl|].
      eapply ts_leb_trans; [exact Htu | by apply Hle].
    + split; [by right|]. intros v [[= <-] | Hv]; [|by apply Hle].
      by destruct (ts_leb_total t u) as [Hc | Hc]; [congruence|].
  - intros [= <-]. split; [by left|]. intros v [[= <-] | Hv]; [apply ts_leb_refl|].
    exfalso. by apply (series_fold_None _ _ Hl v).
Qed.

Lemma series_max_spec (l : list (option Timestamp)) (b : Timestamp) :
  series_max l = Some b ->
  In (Some b) l /\ forall t, In (Some t) l -> ts_leb t b = true.
Proof.
  unfold series_max. revert b.
  induction l as [|o l IH]; intros b; simpl; [done|].
  destruct o as [t|]; [|intros H; destruct (IH b H) as [Hin Hle]; split;
                        [by right | by intros u [? | Hu]; [|apply Hle]]].
  destruct (series_fold ts_max2 l) as [u|] eqn:Hl.
  - destruct (IH u eq_refl) as [Hin Hle]. unfold ts_max2.
    destruct (ts_leb t u) eqn:Htu; intros [= <-].
    + split; [by right|]. intros v [[= <-] | Hv]; [done | by apply Hle].
    + split; [by left|]. intros v [[= <-] | Hv]; [apply ts_leb_refl|].
      eapply ts_leb_trans; [by apply Hle|].
      by destruct (ts_leb_total t u) as [Hc | Hc]; [congruence|].
  - intros [= <-]. split; [by left|]. intros v [[= <-] | Hv]; [apply ts_leb_refl|].
    exfalso. by apply (series_fold_None _ _ Hl v).
Qed.

Lemma date_bounds_cover (fact : list FactRecord) (t : Timestamp) :
  In (Some t) (map f_Period fact) ->
  ts_leb (fst (date_bounds fact)) t = true /\
  ts_leb t (snd (date_bounds fact)) = true.
Proof.
  intros Hin. unfold date_bounds.
  destruct (series_min (map f_Period fact)) as [a|] eqn:Ha.
  2:{ by apply series_fold_None with (t := t) in Ha. }
  destruct (series_max (map f_Period fact)) as [b|] eqn:Hb.
  2:{ by apply series_fold_None with (t := t) in Hb. }
  simpl. split.
  - by apply (series_min_spec _ _ Ha).
  - by apply (series_max_spec _ _ Hb).
Qed.

End Widgets.

(** X18: the bounds of the date slider are well formed and hold every
    period of the fact table: [date_min] is not after [date_max], and every
    period that is not null lies between them (the fixed range
    2024-01-01 to 2025-12-31 being used when there is no period at all). *)
Theorem date_bounds_well_formed (fact : list FactRecord) :
  ts_leb (fst (date_bounds fact)) (snd (date_bounds fact)) = true /\
  (forall r t, In r fact -> f_Period r = Some t ->
               ts_leb (fst (date_bounds fact)) t = true /\
               ts_leb t (snd (date_bounds fact)) = true) /\
  ((forall r, In r fact -> f_Period r = None) ->
   date_bounds fact = (mkTs 2024 1 1 0, mkTs 2025 12 31 0)).
Proof.
  split; [|split].
  - unfold date_bounds.
    destruct (series_min (map f_Period fact)) as [a|] eqn:Ha; [|done].
    destruct (series_max (map f_Period fact)) as [b|] eqn:Hb; [|done].
    simpl. apply (series_max_spec _ _ Hb). by apply (series_min_spec _ _ Ha).
  - intros r t Hr Ht. apply date_bounds_cover. rewrite <- Ht. by apply in_map.
  - intros Hall. unfold date_bounds.
    destruct (series_min (map f_Period fact)) as [a|] eqn:Ha; [|done].
    apply series_min_spec in Ha as [Hin _].
    apply in_map_iff in Hin as (r & Hr & Hin). by rewrite (Hall r Hin) in Hr.
Qed.

(** X19: when the periods carry no fraction of a microsecond (as every
    date read by the strict tier does), the range the date slider starts
    with, together with an empty client selection, hides exactly the rows
    without a period: the filtered table is the fact table with those rows
    dropped. *)
Theorem fact_f_initial_date_range (fact : list FactRecord) :
  (forall r t, In r fact -> f_Period r = Some t -> (ts_nanos t mod 1000 = 0)%Z) ->
  fact_f fact [] (slider_value fact)
  = List.filter (fun r => notna (f_Period r)) fact.
Proof.
  intros Hus. unfold fact_f. rewrite filter_rows_filter. apply filter_ext_in.
  intros r Hr. unfold passes_filter, slider_value. simpl.
  destruct (f_Period r) as [t|] eqn:Ht; [|done]. simpl.
  assert (In (Some t) (map f_Period fact)) as Hin
    by (rewrite <- Ht; by apply in_map).
  destruct (date_bounds_cover fact t Hin) as [Hlo Hhi].
  assert (ts_leb (to_pydatetime (fst (date_bounds fact))) (fst (date_bounds fact))
          = true) as Htrunc.
  { destruct (fst (date_bounds fact)) as [y m d n]. unfold to_pydatetime.
    ts_bool. Z.to_euclidean_division_equations. lia. }
  rewrite (ts_leb_trans _ _ _ Htrunc Hlo). simpl.
  assert (to_pydatetime (snd (date_bounds fact)) = snd (date_bounds fact)) as ->;
    [|done].
  unfold date_bounds in *.
  destruct (series_min (map f_Period fact)) as [a|] eqn:Ha.
  2:{ by apply series_fold_None with (t := t) in Ha. }
  destruct (series_max (map f_Period fact)) as [b|] eqn:Hb.
  2:{ by apply series_fold_None with (t := t) in Hb. }
  simpl. apply series_max_spec in Hb as [Hb _].
  apply in_map_iff in Hb as (rb & Hrb & Hinb).
  pose proof (Hus rb b Hinb Hrb) as Hmod.
  destruct b as [y m d n]. unfold to_pydatetime. simpl in *.
  f_equal. lia.
Qed.

Lemma fact_f_initial_date_range_witness :
  fact_f facts_jan_mar [] (slider_value facts_jan_mar)
  = List.filter (fun r => notna (f_Period r)) facts_jan_mar.
Proof.
  apply fact_f_initial_date_range.
  intros r t [<- | [<- | [<- | []]]] [= <-]; reflexivity.
Defined.

(** X20: the options of the client selector are the client keys of the
    fact table that are not the empty text, each once, in strictly
    ascending order; the pre-selected clients are the first ten of them. *)
Theorem uniq_clients_sorted_distinct (fact : list FactRecord) :
  StronglySorted (fun a b => String.ltb a b = true) (uniq_clients fact) /\
  (forall c, In c (uniq_clients fact) <->
             c <> "" /\ In c (map f_Client fact)) /\
  default_clients fact = firstn 10 (uniq_clients fact).
Proof.
  split; [|split].
  - apply sorted_keys_strict.
    + apply isort_sorted; [apply String.leb_total | apply string_leb_trans].
    + eapply Permutation_NoDup; [symmetry; apply isort_perm|].
      apply List.NoDup_filter, unique_NoDup. exact String.eqb_eq.
  - intros c. unfold uniq_clients.
    rewrite isort_In, filter_In, unique_In by exact String.eqb_eq.
    rewrite negb_true_iff, String.eqb_neq. tauto.
  - unfold default_clients. by destruct (uniq_clients fact).
Qed.

(** X21: a row whose client key is the empty text cannot be selected: as
    soon as some clients are selected from the options, no such row is in
    the filtered table; it is shown only while no client is selected. *)
Theorem empty_client_key_not_selectable (fact : list FactRecord)
  (sel_clients : list string) (sel_date : Timestamp * Timestamp)
  (r : FactRecord) :
  sel_clients <> [] ->
  (forall c, In c sel_clients -> In c (uniq_clients fact)) ->
  In r (fact_f fact sel_clients sel_date) ->
  f_Client r <> "".
Proof.
  intros Hne Hsub Hin. unfold fact_f in Hin.
  apply filter_rows_In in Hin as [_ Hp]. unfold passes_filter in Hp.
  apply andb_true_iff in Hp as [Hc _].
  destruct sel_clients as [|c0 sel]; [done|].
  apply existsb_eqb_In, Hsub in Hc. unfold uniq_clients in Hc.
  rewrite isort_In, filter_In in Hc. destruct Hc as [_ Hc].
  by apply negb_true_iff, String.eqb_neq in Hc.
Qed.

Lemma empty_client_key_not_selectable_witness :
  f_Client (mkFact "Bolt" (Some (mkTs 2025 1 5 0)) (Fin 40) (Fin 10) (Fin 30))
  <> "".
Proof.
  apply (empty_client_key_not_selectable facts_jan_mar ["Bolt"]
           (mkTs 2025 1 1 0, mkTs 2025 12 31 0)).
  - discriminate.
  - intros c [<- | []]. vm_compute. right. left. reflexivity.
  - vm_compute. left. reflexivity.
Defined.

(* ===================================================================== *)
(** ** Charts: further properties *)
(* ===================================================================== *)

Section ChartsMore.

Context {pd : Pandas}.

Lemma has_month_start {R} (period : R -> option Timestamp) (rows : list R)
  (m : Timestamp) :
  has_month period rows m = true -> ts_day m = 1%Z /\ ts_nanos m = 0%Z.
Proof.
  unfold has_month, in_month. intros H.
  apply existsb_exists in H as (r & _ & Hr).
  destruct (period r) as [t|]; [|done]. by apply ts_eqb_eq in Hr as <-.
Qed.

Lemma monthly_sum_sorted {R} (period : R -> option Timestamp) (val : R -> Num)
  (rows : list R) :
  StronglySorted (fun a b => ts_ltb (fst a) (fst b) = true)
    (monthly_sum period val rows).
Proof.
  apply (sorted_by_month_strict fst); [|apply monthly_sum_NoDup].
  unfold monthly_sum, groupby_sum.
  assert (StronglySorted (fun a b => ts_leb a b = true)
            (group_keys fst ts_eqb ts_leb (month_rows period val rows))) as Hk.
  { apply isort_sorted; [apply ts_leb_total | apply ts_leb_trans]. }
  induction Hk as [|k ks Hs IH Hx]; simpl; constructor; [done|].
  apply List.Forall_forall. intros p Hp.
  apply in_map_iff in Hp as (k' & <- & Hk'). simpl.
  by eapply List.Forall_forall in Hx.
Qed.

End ChartsMore.



(** X27: when clients are selected, the top-clients chart of the filtered
    table shows selected clients only. *)
Theorem top_clients_within_selection `{Pandas} (fact : list FactRecord)
  (sel_clients : list string) (sel_date : Timestamp * Timestamp)
  (c : string) (revenue : Num) :
  sort_values_permutes ->
  sel_clients <> [] ->
  In (c, revenue) (top_clients (fact_f fact sel_clients sel_date)) ->
  In c sel_clients.
Proof.
  intros Hperm Hne Hin. unfold top_clients in Hin.
  apply In_firstn in Hin. apply (Permutation_in _ (Hperm _)) in Hin.
  apply groupby_sum_In in Hin as [Hc _]; [|exact String.eqb_eq].
  apply in_map_iff in Hc as (r & <- & Hr).
  apply filter_rows_In in Hr as [_ Hp]. unfold passes_filter in Hp.
  apply andb_true_iff in Hp as [Hp _].
  destruct sel_clients as [|c0 sel]; [done|]. by apply existsb_eqb_In.
Qed.

Lemma top_clients_within_selection_witness : In "Bolt" ["Bolt"; "Zeta"].
Proof.
  apply (@top_clients_within_selection pandas_ref facts_jan_mar ["Bolt"; "Zeta"]
           (mkTs 2025 1 1 0, mkTs 2025 12 31 0) "Bolt" (Fin 40)).
  - exact pandas_ref_sort_permutes.
  - discriminate.
  - vm_compute. left. reflexivity.
Defined.

(** X28: a month in which every forecast amount is missing is still a
    month of the forecast side: the reconciliation reports 0 for it, not
    null; null stands only for a side that has no record in the month. *)
Theorem null_amounts_reconcile_to_zero `{Pandas} (facts : list FactRecord)
  (forecasts : list ForecastRecord) (rows : list (Timestamp * Num * Num))
  (m : Timestamp) :
  actualVsForecast facts forecasts = Some rows ->
  has_month fc_Period forecasts m = true ->
  (forall r, In r forecasts -> in_month fc_Period m r = true ->
             fc_Forecast r = Null) ->
  In (m, side_value f_Period f_Revenue facts m, Fin 0) rows.
Proof.
  unfold actualVsForecast. intros Hrows Hm Hnull.
  destruct (existsb notna (map fc_Period forecasts)); [|done].
  injection Hrows as <-. apply af_In. split; [by right|]. split; [done|].
  unfold side_value. rewrite Hm. symmetry.
  apply sum_with_all_null. intros x Hx.
  apply in_map_iff in Hx as (r & <- & Hr). apply filter_In in Hr as [Hr Hin].
  by apply Hnull.
Qed.

Lemma null_amounts_reconcile_to_zero_witness :
  In (mkTs 2025 2 1 0,
      @side_value pandas_ref _ f_Period f_Revenue facts_jan_mar (mkTs 2025 2 1 0),
      Fin 0)
     [(mkTs 2025 1 1 0, Fin 100, Null);
      (mkTs 2025 2 1 0, Null, Fin 0);
      (mkTs 2025 3 1 0, Fin 100, Null)].
Proof.
  apply (@null_amounts_reconcile_to_zero pandas_ref facts_jan_mar
           forecasts_null_amount).
  - vm_compute. reflexivity.
  - reflexivity.
  - intros r [<- | []] _. reflexivity.
Defined.

(** X29: when the reconciliation is produced, its actual column is the
    revenue trend: a month has the actual value [v], not a null, in the
    reconciliation exactly when the trend has the point [(month, v)]. *)
Theorem reconciliation_actuals_are_trend `{Pandas} (facts : list FactRecord)
  (forecasts : list ForecastRecord) (rows : list (Timestamp * Num * Num))
  (m : Timestamp) (v : Num) :
  actualVsForecast facts forecasts = Some rows ->
  (In (m, v) (ts facts) <-> v <> Null /\ exists f, In (m, v, f) rows).
Proof.
  unfold actualVsForecast. intros Hrows.
  destruct (existsb notna (map fc_Period forecasts)); [|done].
  injection Hrows as <-. unfold ts. rewrite monthly_sum_In. split.
  - intros [Hm ->]. split; [apply month_total_not_null|].
    eexists. apply af_In. split; [by left|].
    split; [|reflexivity]. unfold side_value. by rewrite Hm.
  - intros [Hv [f Hin]]. apply af_In in Hin as (_ & Ha & _).
    unfold side_value in Ha.
    by destruct (has_month f_Period facts m).
Qed.

Lemma reconciliation_actuals_are_trend_witness :
  In (mkTs 2025 3 1 0, Fin 100) (@ts pandas_ref facts_jan_mar) <->
  Fin 100 <> Null /\
  exists f, In (mkTs 2025 3 1 0, Fin 100, f)
              [(mkTs 2025 1 1 0, Fin 100, Fin 90);
               (mkTs 2025 2 1 0, Null, Fin 5);
               (mkTs 2025 3 1 0, Fin 100, Null)].
Proof.
  apply (@reconciliation_actuals_are_trend pandas_ref facts_jan_mar
           forecasts_jan_feb).
  vm_compute. reflexivity.
Defined.

(* ===================================================================== *)
(** ** Repeated headers *)
(* ===================================================================== *)

Section RepeatedHeaders.

Context {pd : Pandas}.

Lemma find_col_In (columns candidates : list string) (h : string) :
  find_col columns candidates = Some h -> In h columns.
Proof.
  unfold find_col. intros Hf.
  apply find_col_loop_Some in Hf as (cand & _ & Hl).
  apply cols_dict_lookup_Some in Hl as (hpre & hpost & -> & _).
  apply in_or_app. right. by left.
Qed.

(** Reading a resolved column gives the column when its header heads one
    column, and raises when it heads several. *)
Lemma df_getitem_resolved (df : DataFrame) (candidates : list string) (h : string) :
  find_col (df_columns df) candidates = Some h ->
  if heads_one_column df (Some h)
  then exists series, df_getitem df h = Ok series
  else df_getitem df h = Raised NotOneColumn.
Proof.
  intros Hf. apply find_col_In in Hf.
  pose proof (df_getitem_KeyError df h Hf) as Hk.
  unfold heads_one_column, df_getitem in *.
  destruct (List.filter _ (df_cols df)) as [|p [|q l]]; simpl; [done | eauto | done].
Qed.

Lemma period_column_outcome (df : DataFrame) (candidates : list string) :
  if heads_one_column df (find_col (df_columns df) candidates)
  then exists col, period_column df (find_col (df_columns df) candidates) = Ok col
  else period_column df (find_col (df_columns df) candidates) = Raised NotOneColumn.
Proof.
  destruct (find_col (df_columns df) candidates) as [h|] eqn:Hf; [|by eexists].
  pose proof (df_getitem_resolved df candidates h Hf) as Hg.
  unfold period_column.
  destruct (heads_one_column df (Some h)); [|by rewrite Hg].
  destruct Hg as [series ->]. by eexists.
Qed.

Lemma number_column_outcome (df : DataFrame) (candidates : list string) :
  if heads_one_column df (find_col (df_columns df) candidates)
  then exists col, number_column df (find_col (df_columns df) candidates) = Ok col
  else number_column df (find_col (df_columns df) candidates) = Raised NotOneColumn.
Proof.
  destruct (find_col (df_columns df) candidates) as [h|] eqn:Hf; [|by eexists].
  pose proof (df_getitem_resolved df candidates h Hf) as Hg.
  unfold number_column.
  destruct (heads_one_column df (Some h)); [|by rewrite Hg].
  destruct Hg as [series ->]. by eexists.
Qed.

Lemma client_column_outcome (df : DataFrame) (candidates : list string) :
  if heads_one_column df (find_col (df_columns df) candidates)
  then exists col, client_column df (find_col (df_columns df) candidates) = Ok col
  else client_column df (find_col (df_columns df) candidates) = Raised NotOneColumn.
Proof.
  destruct (find_col (df_columns df) candidates) as [h|] eqn:Hf; [|by eexists].
  pose proof (df_getitem_resolved df candidates h Hf) as Hg.
  unfold client_column.
  destruct (heads_one_column df (Some h)); [|by rewrite Hg].
  destruct Hg as [series ->]. by eexists.
Qed.

End RepeatedHeaders.



(** Two headers that differ by trailing white space only are one header
    once the sheet is read. *)
Example strip_columns_repeats_header :
  strip_columns ["Client"; "Client "; "Amount"] = ["Client"; "Client"; "Amount"].
Proof. reflexivity. Qed.
